(** * Posture-Analyser: camera capture backends

    A shallow embedding of the two native capture backends,
    [V4L2Camera] (v4l2_camera.cpp) and [UVCCamera] (uvc_camera_impl.cpp),
    and of the JNI binding [nativeGetFrame] (uvc_camera.cpp).

    The C++ objects become records, every member function becomes a
    function that threads the object and the outside world explicitly, and
    every system call asks an environment record for its verdict. *)

From Stdlib Require Import ZArith List Bool String Lia Permutation.
Import ListNotations.
Open Scope Z_scope.

(** ** Constants of <linux/videodev2.h> and of the platform *)

Definition INT_MAX : Z := 2147483647.
Definition INT_MIN : Z := -2147483648.
Definition V4L2_BUF_TYPE_VIDEO_CAPTURE : Z := 1.
Definition V4L2_MEMORY_MMAP : Z := 1.
Definition V4L2_FIELD_NONE : Z := 1.
Definition V4L2_CAP_VIDEO_CAPTURE : Z := 1.
Definition V4L2_CAP_STREAMING : Z := 67108864.
Definition V4L2_PIX_FMT_YUYV : Z := 1448695129.
Definition V4L2_PIX_FMT_MJPEG : Z := 1196444237.

(** ** Data model of the kernel backend *)

(** A [void*] as the code tells them apart: [nullptr], [MAP_FAILED], or the
    start of a region. *)
Inductive ptr : Type :=
| Null
| MapFailed
| Addr (a : nat).

Definition ptr_eqb (p q : ptr) : bool :=
  match p, q with
  | Null, Null => true
  | MapFailed, MapFailed => true
  | Addr a, Addr b => Nat.eqb a b
  | _, _ => false
  end.

(** The fields of [struct v4l2_buffer] that the code reads or writes. *)
Record v4l2_buffer : Type := mk_buffer {
  b_index : Z;
  b_type : Z;
  b_bytesused : Z;
  b_memory : Z;
  b_offset : Z;
  b_length : Z
}.

(** [memset(&buf, 0, sizeof(buf))] *)
Definition zero_buffer : v4l2_buffer := mk_buffer 0 0 0 0 0 0.

(** [buf.type = CAPTURE; buf.memory = MMAP; buf.index = i] on a zeroed
    buffer. *)
Definition capture_buffer (i : Z) : v4l2_buffer :=
  mk_buffer i V4L2_BUF_TYPE_VIDEO_CAPTURE 0 V4L2_MEMORY_MMAP 0 0.

(** The [pix] part of [struct v4l2_format]. *)
Record pix_format : Type := mk_pix {
  pix_width : Z;
  pix_height : Z;
  pix_pixelformat : Z;
  pix_field : Z
}.

(** The private members of [class V4L2Camera]; an array pointer is [None]
    when it is [nullptr]. *)
Record V4L2Camera : Type := mk_camera {
  fd_ : Z;
  current_buffer_ : v4l2_buffer;
  buffers_ : option (list v4l2_buffer);
  buffer_start_ : option (list ptr);
  buffer_count_ : Z;
  streaming_ : bool
}.

(** [V4L2Camera::V4L2Camera()] *)
Definition V4L2Camera_new : V4L2Camera :=
  mk_camera (-1) zero_buffer None None 0 false.

(** [isOpen()] *)
Definition isOpen (c : V4L2Camera) : bool := 0 <=? fd_ c.

Definition set_fd (c : V4L2Camera) (fd : Z) : V4L2Camera :=
  mk_camera fd (current_buffer_ c) (buffers_ c) (buffer_start_ c)
            (buffer_count_ c) (streaming_ c).
Definition set_current_buffer (c : V4L2Camera) (b : v4l2_buffer) : V4L2Camera :=
  mk_camera (fd_ c) b (buffers_ c) (buffer_start_ c)
            (buffer_count_ c) (streaming_ c).
Definition set_pool (c : V4L2Camera) (bs : option (list v4l2_buffer))
           (ps : option (list ptr)) (n : Z) : V4L2Camera :=
  mk_camera (fd_ c) (current_buffer_ c) bs ps n (streaming_ c).
Definition set_streaming (c : V4L2Camera) (s : bool) : V4L2Camera :=
  mk_camera (fd_ c) (current_buffer_ c) (buffers_ c) (buffer_start_ c)
            (buffer_count_ c) s.

(** ** The world outside the object

    What the process and the driver hold on behalf of the camera.  The
    lists [w_opened], [w_offered], [w_adopted] and [w_closed] are
    bookkeeping of the handles that went through the object. *)

(** A log line: the format string of the [LOGE]/[LOGI] call and its integer
    arguments ([strerror] and string arguments are left out). *)
Record LogLine : Type := mk_log {
  log_error : bool;
  log_format : string;
  log_args : list Z
}.

Definition LOGE (s : string) : LogLine := mk_log true s [].

Record World : Type := mk_world {
  w_tick : nat;                  (* system calls issued so far *)
  w_mappings : list (nat * Z);   (* live mmap regions: start, length *)
  w_next_addr : nat;             (* where the next region is placed *)
  w_strays : list ptr;           (* munmap calls that hit no live region *)
  w_queued : list Z;             (* buffer indices the driver owns *)
  w_inflight : list Z;           (* dequeued and not queued again *)
  w_opened : list Z;             (* descriptors returned by ::open *)
  w_offered : list Z;            (* descriptors passed to openByFd *)
  w_adopted : list Z;            (* descriptors openByFd kept *)
  w_closed : list Z;             (* descriptors given to ::close *)
  w_log : list LogLine           (* newest first *)
}.

Definition world0 : World := mk_world 0 [] 1 [] [] [] [] [] [] [] [].

Definition tick (w : World) : World :=
  mk_world (S (w_tick w)) (w_mappings w) (w_next_addr w) (w_strays w)
           (w_queued w) (w_inflight w) (w_opened w) (w_offered w)
           (w_adopted w) (w_closed w) (w_log w).
Definition log (l : LogLine) (w : World) : World :=
  mk_world (w_tick w) (w_mappings w) (w_next_addr w) (w_strays w)
           (w_queued w) (w_inflight w) (w_opened w) (w_offered w)
           (w_adopted w) (w_closed w) (l :: w_log w).
Definition set_memory (w : World) (ms : list (nat * Z)) (next : nat)
           (strays : list ptr) : World :=
  mk_world (w_tick w) ms next strays
           (w_queued w) (w_inflight w) (w_opened w) (w_offered w)
           (w_adopted w) (w_closed w) (w_log w).
Definition set_queues (w : World) (q fl : list Z) : World :=
  mk_world (w_tick w) (w_mappings w) (w_next_addr w) (w_strays w)
           q fl (w_opened w) (w_offered w)
           (w_adopted w) (w_closed w) (w_log w).
Definition set_handles (w : World) (op off ad cl : list Z) : World :=
  mk_world (w_tick w) (w_mappings w) (w_next_addr w) (w_strays w)
           (w_queued w) (w_inflight w) op off ad cl (w_log w).

Definition removeZ (x : Z) (l : list Z) : list Z :=
  filter (fun y => negb (y =? x)) l.

Definition is_mapped (a : nat) (w : World) : bool :=
  existsb (fun m => Nat.eqb (fst m) a) (w_mappings w).

(** Result of [VIDIOC_DQBUF]. *)
Inductive DqReply : Type :=
| DqOk (index bytesused : Z)
| DqAgain                        (* errno == EAGAIN *)
| DqError.

(** The verdict of the operating system and of the driver on every call
    the backend makes.  Each verdict may depend on the whole world, so on
    everything that happened before. *)
Record Kernel : Type := mk_kernel {
  sys_open : World -> string -> Z;
  ioctl_querycap : World -> Z -> option Z;
  ioctl_s_fmt : World -> Z -> pix_format -> option pix_format;
  ioctl_reqbufs : World -> Z -> Z -> option Z;
  ioctl_querybuf : World -> Z -> Z -> option (Z * Z);
  sys_mmap : World -> Z -> Z -> Z -> bool;
  ioctl_qbuf : World -> Z -> v4l2_buffer -> bool;
  ioctl_dqbuf : World -> Z -> DqReply;
  ioctl_streamon : World -> Z -> bool;
  ioctl_streamoff : World -> Z -> bool;
  (* contents of storage obtained from new[] without an initialiser *)
  fresh_ptr : World -> nat -> ptr;
  fresh_buffer : World -> nat -> v4l2_buffer;
  (* the bytes behind a mapped region *)
  region_bytes : World -> ptr -> list Z;
  (* whether env->NewByteArray returns an array *)
  jni_new_byte_array : World -> Z -> bool
}.

(** ** Effects of the calls on the world *)

(** [::close(fd)] *)
Definition sys_close (fd : Z) (w : World) : World :=
  tick (set_handles w (w_opened w) (w_offered w) (w_adopted w)
                    (fd :: w_closed w)).

(** A successful [mmap]: a new region of [len] bytes at a new address. *)
Definition do_mmap (len : Z) (w : World) : ptr * World :=
  (Addr (w_next_addr w),
   tick (set_memory w ((w_next_addr w, len) :: w_mappings w)
                    (S (w_next_addr w)) (w_strays w))).

(** [munmap(p, len)]: the region that starts at [p] goes away; a call that
    hits no live region is recorded. *)
Definition sys_munmap (p : ptr) (len : Z) (w : World) : World :=
  match p with
  | Addr a =>
      if is_mapped a w
      then tick (set_memory w
                   (filter (fun m => negb (Nat.eqb (fst m) a)) (w_mappings w))
                   (w_next_addr w) (w_strays w))
      else tick (set_memory w (w_mappings w) (w_next_addr w) (p :: w_strays w))
  | _ => tick (set_memory w (w_mappings w) (w_next_addr w) (p :: w_strays w))
  end.

(** An accepted [VIDIOC_QBUF]: the driver owns the buffer again. *)
Definition do_qbuf (i : Z) (w : World) : World :=
  set_queues w (i :: removeZ i (w_queued w)) (removeZ i (w_inflight w)).

(** A successful [VIDIOC_DQBUF]: the buffer is with the application. *)
Definition do_dqbuf (i : Z) (w : World) : World :=
  set_queues w (removeZ i (w_queued w)) (i :: removeZ i (w_inflight w)).

(** An accepted [VIDIOC_REQBUFS] or [VIDIOC_STREAMOFF] empties both
    queues. *)
Definition reset_queues (w : World) : World := set_queues w [] [].

(** [a[i] = x] on an array held as a list. *)
Fixpoint upd {A : Type} (i : nat) (x : A) (l : list A) : list A :=
  match l, i with
  | [], _ => []
  | _ :: t, O => x :: t
  | h :: t, S j => h :: upd j x t
  end.

(** Storage of [n] elements from [new T[n]]: nothing initialises it. *)
Definition new_array {A : Type} (n : nat) (content : nat -> A) : list A :=
  map content (seq 0 n).

(** [int] to [__u32] *)
Definition to_u32 (z : Z) : Z := z mod 4294967296.

(** [__u32] to [int]: values above [INT_MAX] wrap to negative ones. *)
Definition u32_to_int (z : Z) : Z :=
  if z mod 4294967296 <=? INT_MAX
  then z mod 4294967296
  else z mod 4294967296 - 4294967296.

(** ** The member functions of [V4L2Camera] *)

Section KernelBackend.

Variable K : Kernel.

(** [V4L2Camera::queryCapabilities] *)
Definition queryCapabilities (c : V4L2Camera) (w : World) : bool * World :=
  match ioctl_querycap K w (fd_ c) with
  | None => (false, log (LOGE "Failed to query capabilities: %s") (tick w))
  | Some caps =>
      if Z.land caps V4L2_CAP_VIDEO_CAPTURE =? 0
      then (false, log (LOGE "Device does not support video capture") (tick w))
      else if Z.land caps V4L2_CAP_STREAMING =? 0
      then (false, log (LOGE "Device does not support streaming") (tick w))
      else (true, tick w)
  end.

(** [V4L2Camera::open] *)
Definition open (c : V4L2Camera) (w : World) (device_path : string)
  : bool * V4L2Camera * World :=
  let fd := sys_open K w device_path in
  let c1 := set_fd c fd in
  let w1 := tick w in
  if fd <? 0
  then (false, c1,
        log (mk_log true "Failed to open device %s: %s (errno=%d)" []) w1)
  else
    let w2 := set_handles w1 (fd :: w_opened w1) (w_offered w1)
                          (w_adopted w1) (w_closed w1) in
    let '(ok, w3) := queryCapabilities c1 w2 in
    if ok then (true, c1, w3)
    else (false, set_fd c1 (-1), sys_close fd w3).

(** [V4L2Camera::openByFd] *)
Definition openByFd (c : V4L2Camera) (w : World) (fd : Z)
  : bool * V4L2Camera * World :=
  if fd <? 0
  then (false, c, log (mk_log true "Invalid file descriptor: %d" [fd]) w)
  else
    let c1 := set_fd c fd in
    let w1 := set_handles w (w_opened w) (fd :: w_offered w)
                          (w_adopted w) (w_closed w) in
    let '(ok, w2) := queryCapabilities c1 w1 in
    if ok
    then (true, c1,
          set_handles w2 (w_opened w2) (w_offered w2)
                      (fd :: w_adopted w2) (w_closed w2))
    else (false, set_fd c1 (-1), w2).

(** [V4L2Camera::setFormat].  The format the driver wrote back into [fmt]
    goes to the log only. *)
Definition setFormat (c : V4L2Camera) (w : World) (width height pixelFormat : Z)
  : bool * V4L2Camera * World :=
  let fmt := mk_pix (to_u32 width) (to_u32 height) (to_u32 pixelFormat)
                    V4L2_FIELD_NONE in
  match ioctl_s_fmt K w (fd_ c) fmt with
  | None =>
      (false, c,
       log (mk_log true "Failed to set format %dx%d fourcc=0x%08x: %s (errno=%d)"
                   [width; height; pixelFormat]) (tick w))
  | Some got =>
      (true, c,
       log (mk_log false "Format successfully set to %dx%d, fourcc=0x%08x"
                   [pix_width got; pix_height got; pix_pixelformat got])
           (tick w))
  end.

(** The loop of [freeBuffers]: slot [i] is unmapped with the length held
    in [buffers_[i]] unless it is null or [MAP_FAILED]. *)
Fixpoint unmap_loop (fuel i : nat) (ps : list ptr) (bs : list v4l2_buffer)
         (w : World) : World :=
  match fuel with
  | O => w
  | S fuel' =>
      let p := nth i ps Null in
      let w' := if ptr_eqb p Null || ptr_eqb p MapFailed then w
                else sys_munmap p (b_length (nth i bs zero_buffer)) w in
      unmap_loop fuel' (S i) ps bs w'
  end.

(** [V4L2Camera::freeBuffers] *)
Definition freeBuffers (c : V4L2Camera) (w : World) : V4L2Camera * World :=
  let w' :=
    match buffer_start_ c with
    | Some ps =>
        unmap_loop (Z.to_nat (buffer_count_ c)) 0 ps
                   (match buffers_ c with Some bs => bs | None => [] end) w
    | None => w
    end in
  (set_pool c None None 0, w').

(** The mapping loop of [initBuffers], from index [i] on. *)
Fixpoint map_loop (fuel i : nat) (c : V4L2Camera) (w : World)
  : bool * V4L2Camera * World :=
  match fuel with
  | O => (true, c, w)
  | S fuel' =>
      let ps := match buffer_start_ c with Some ps => ps | None => [] end in
      let bs := match buffers_ c with Some bs => bs | None => [] end in
      match ioctl_querybuf K w (fd_ c) (Z.of_nat i) with
      | None =>
          let '(c', w') :=
            freeBuffers c (log (LOGE "Failed to query buffer: %s") (tick w)) in
          (false, c', w')
      | Some (len, off) =>
          let buf := mk_buffer (Z.of_nat i) V4L2_BUF_TYPE_VIDEO_CAPTURE 0
                               V4L2_MEMORY_MMAP off len in
          let w1 := tick w in
          if sys_mmap K w1 len (fd_ c) off
          then
            let '(p, w2) := do_mmap len w1 in
            let c2 := set_pool c (Some (upd i buf bs)) (Some (upd i p ps))
                               (buffer_count_ c) in
            map_loop fuel' (S i) c2 w2
          else
            let c2 := set_pool c (buffers_ c) (Some (upd i MapFailed ps))
                               (buffer_count_ c) in
            let '(c', w') :=
              freeBuffers c2 (log (LOGE "Failed to mmap buffer: %s") (tick w1)) in
            (false, c', w')
      end
  end.

(** [V4L2Camera::initBuffers].  The result is [None] when [new] is asked for
    a negative number of elements and throws. *)
Definition initBuffers (c : V4L2Camera) (w : World)
  : option (bool * V4L2Camera * World) :=
  match ioctl_reqbufs K w (fd_ c) 4 with
  | None => Some (false, c, log (LOGE "Failed to request buffers: %s") (tick w))
  | Some count =>
      let w1 := reset_queues (tick w) in
      if count <? 2
      then Some (false, c, log (LOGE "Insufficient buffer memory") w1)
      else if INT_MAX <? count then None
      else
        let n := Z.to_nat count in
        let c1 := set_pool c (Some (new_array n (fresh_buffer K w1)))
                           (Some (new_array n (fresh_ptr K w1))) count in
        Some (map_loop n 0 c1 w1)
  end.

(** The queueing loop of [startStreaming], from index [i] on. *)
Fixpoint queue_loop (fuel i : nat) (c : V4L2Camera) (w : World)
  : bool * World :=
  match fuel with
  | O => (true, w)
  | S fuel' =>
      if ioctl_qbuf K w (fd_ c) (capture_buffer (Z.of_nat i))
      then queue_loop fuel' (S i) c (do_qbuf (Z.of_nat i) (tick w))
      else (false, log (LOGE "Failed to queue buffer: %s") (tick w))
  end.

(** [V4L2Camera::startStreaming] *)
Definition startStreaming (c : V4L2Camera) (w : World)
  : option (bool * V4L2Camera * World) :=
  match initBuffers c w with
  | None => None
  | Some (false, c1, w1) => Some (false, c1, w1)
  | Some (true, c1, w1) =>
      match queue_loop (Z.to_nat (buffer_count_ c1)) 0 c1 w1 with
      | (false, w2) => Some (false, c1, w2)
      | (true, w2) =>
          if ioctl_streamon K w2 (fd_ c1)
          then Some (true, set_streaming c1 true, tick w2)
          else Some (false, c1,
                     log (LOGE "Failed to start streaming: %s") (tick w2))
      end
  end.

(** [V4L2Camera::stopStreaming] *)
Definition stopStreaming (c : V4L2Camera) (w : World)
  : bool * V4L2Camera * World :=
  if negb (streaming_ c) then (true, c, w)
  else if ioctl_streamoff K w (fd_ c)
  then (true, set_streaming c false, reset_queues (tick w))
  else (false, c, log (LOGE "Failed to stop streaming: %s") (tick w)).

(** [V4L2Camera::getFrame]; [Some (buffer, buffer_size)] stands for [true]
    with the two out-parameters written; [buffer_size] is an [int] that
    receives the [__u32] field [bytesused].  A read outside [buffer_start_]
    yields [Null] here. *)
Definition getFrame (c : V4L2Camera) (w : World)
  : option (ptr * Z) * V4L2Camera * World :=
  if negb (streaming_ c)
  then (None, c, log (LOGE "Camera is not streaming") w)
  else
    let c1 := set_current_buffer c (capture_buffer 0) in
    match ioctl_dqbuf K w (fd_ c) with
    | DqAgain => (None, c1, tick w)
    | DqError =>
        (None, c1, log (LOGE "Failed to dequeue buffer: %s") (tick w))
    | DqOk i used =>
        let c2 := set_current_buffer c
                    (mk_buffer i V4L2_BUF_TYPE_VIDEO_CAPTURE used
                               V4L2_MEMORY_MMAP 0 0) in
        let ps := match buffer_start_ c with Some ps => ps | None => [] end in
        (Some (nth (Z.to_nat i) ps Null, u32_to_int used), c2,
         do_dqbuf i (tick w))
    end.

(** [V4L2Camera::releaseFrame] *)
Definition releaseFrame (c : V4L2Camera) (w : World) : V4L2Camera * World :=
  if ioctl_qbuf K w (fd_ c) (current_buffer_ c)
  then (c, do_qbuf (b_index (current_buffer_ c)) (tick w))
  else (c, log (LOGE "Failed to requeue buffer: %s") (tick w)).

(** [V4L2Camera::close] *)
Definition close (c : V4L2Camera) (w : World) : V4L2Camera * World :=
  let '(c1, w1) :=
    if streaming_ c
    then let '(_, c1, w1) := stopStreaming c w in (c1, w1)
    else (c, w) in
  let '(c2, w2) := freeBuffers c1 w1 in
  if 0 <=? fd_ c2
  then (set_fd c2 (-1), sys_close (fd_ c2) w2)
  else (c2, w2).

(** [nativeGetFrame] of the JNI binding: the frame is copied into a new
    managed array, then released.  [native_ptr] is [None] for a null
    pointer; the result is the content of the returned [jbyteArray], or
    [None] for [nullptr]. *)
Definition nativeGetFrame (native_ptr : option V4L2Camera) (w : World)
  : option (list Z) * option V4L2Camera * World :=
  match native_ptr with
  | None => (None, None, w)
  | Some camera =>
      match getFrame camera w with
      | (None, c1, w1) => (None, Some c1, w1)
      | (Some (buffer, buffer_size), c1, w1) =>
          let result :=
            if jni_new_byte_array K w1 buffer_size
            then Some (firstn (Z.to_nat buffer_size) (region_bytes K w1 buffer))
            else None in
          let '(c2, w2) := releaseFrame c1 w1 in
          (result, Some c2, w2)
      end
  end.

(** [nativeSetFormat] of the JNI binding: the [jboolean] handed back to
    the managed caller. *)
Definition nativeSetFormat (native_ptr : option V4L2Camera) (w : World)
           (width height pixel_format : Z)
  : bool * option V4L2Camera * World :=
  match native_ptr with
  | None => (false, None, log (LOGE "Invalid camera pointer") w)
  | Some camera =>
      let '(result, c1, w1) := setFormat camera w width height pixel_format in
      (if result then true else false, Some c1, w1)
  end.

End KernelBackend.

(** ** The USB bulk backend ([class UVCCamera]) *)

Module UVC.

Definition UVC_INTERFACE_CLASS : Z := 14.
Definition UVC_INTERFACE_SUBCLASS_STREAMING : Z := 2.
Definition USB_ENDPOINT_XFER_BULK : Z := 2.
Definition USB_DIR_IN : Z := 128.

(** What the Java objects answer through JNI. *)
Record UsbEndpoint : Type := mk_endpoint {
  getType : Z;
  getDirection : Z
}.

Record UsbInterface : Type := mk_interface {
  getInterfaceClass : Z;
  getInterfaceSubclass : Z;
  endpoints : list UsbEndpoint      (* getEndpointCount, getEndpoint(j) *)
}.

(** A [UsbDevice] is its interfaces (getInterfaceCount, getInterface(i)). *)
Definition UsbDevice : Type := list UsbInterface.

(** A [UsbDeviceConnection]: whether [claimInterface] accepts interface
    [i], and what the [n]-th [bulkTransfer] of [length] bytes returns. *)
Record UsbDeviceConnection : Type := mk_connection {
  claimInterface : nat -> bool;
  bulkTransferResult : nat -> Z -> Z
}.

(** The JVM and the native heap as the backend touches them. *)
Record Host : Type := mk_host {
  h_global_refs : nat;            (* live JNI global references *)
  h_claimed : list nat;           (* interfaces claimed on the connection *)
  h_arrays : list nat;            (* live arrays from new uint8_t[] *)
  h_next_array : nat;
  h_transfers : nat;              (* bulk transfers issued *)
  h_log : list LogLine
}.

Definition host0 : Host := mk_host 0 [] [] 0 0 [].

Definition hlog (l : LogLine) (h : Host) : Host :=
  mk_host (h_global_refs h) (h_claimed h) (h_arrays h) (h_next_array h)
          (h_transfers h) (l :: h_log h).
Definition set_refs (h : Host) (n : nat) : Host :=
  mk_host n (h_claimed h) (h_arrays h) (h_next_array h)
          (h_transfers h) (h_log h).
Definition claim (i : nat) (h : Host) : Host :=
  mk_host (h_global_refs h) (i :: h_claimed h) (h_arrays h) (h_next_array h)
          (h_transfers h) (h_log h).
Definition set_arrays (h : Host) (l : list nat) (next : nat) : Host :=
  mk_host (h_global_refs h) (h_claimed h) l next (h_transfers h) (h_log h).
Definition transfer (h : Host) : Host :=
  mk_host (h_global_refs h) (h_claimed h) (h_arrays h) (h_next_array h)
          (S (h_transfers h)) (h_log h).

(** The private members of [class UVCCamera].  [env_] is [true] when the
    pointer is set; [bulkEndpoint_] names the endpoint by the index of its
    interface and its index inside it; [frameBuffer_] names the array. *)
Record UVCCamera : Type := mk_uvc {
  env_ : bool;
  usbConnection_ : option UsbDeviceConnection;
  usbDevice_ : option UsbDevice;
  bulkEndpoint_ : option (nat * nat);
  width_ : Z;
  height_ : Z;
  streaming_ : bool;
  frameBuffer_ : option nat;
  frameBufferSize_ : Z
}.

(** [UVCCamera::UVCCamera()] *)
Definition UVCCamera_new : UVCCamera :=
  mk_uvc false None None None 640 480 false None 0.

(** The loop of [findStreamingInterface] over the interfaces from index
    [i] on. *)
Fixpoint streaming_loop (conn : UsbDeviceConnection) (ifs : list UsbInterface)
         (i : nat) (h : Host) : bool * Host :=
  match ifs with
  | [] => (false, h)
  | usbInterface :: rest =>
      if (getInterfaceClass usbInterface =? UVC_INTERFACE_CLASS)
         && (getInterfaceSubclass usbInterface =? UVC_INTERFACE_SUBCLASS_STREAMING)
      then
        if claimInterface conn i
        then (true, claim i h)
        else streaming_loop conn rest (S i)
                            (hlog (LOGE "Failed to claim interface") h)
      else streaming_loop conn rest (S i) h
  end.

(** [UVCCamera::findStreamingInterface] (the JNI class and method lookups
    are taken to succeed). *)
Definition findStreamingInterface (c : UVCCamera) (h : Host) : bool * Host :=
  match usbConnection_ c, usbDevice_ c with
  | Some conn, Some dev => streaming_loop conn dev 0 h
  | _, _ => (false, h)
  end.

(** The inner loop of [findBulkEndpoint]: the first endpoint from index [j]
    on with type 2 and direction 128. *)
Fixpoint endpoint_loop (eps : list UsbEndpoint) (j : nat) : option nat :=
  match eps with
  | [] => None
  | endpoint :: rest =>
      if (getType endpoint =? USB_ENDPOINT_XFER_BULK)
         && (getDirection endpoint =? USB_DIR_IN)
      then Some j
      else endpoint_loop rest (S j)
  end.

(** The outer loop of [findBulkEndpoint]: every interface of the device,
    from index [i] on. *)
Fixpoint interface_loop (ifs : list UsbInterface) (i : nat)
  : option (nat * nat) :=
  match ifs with
  | [] => None
  | usbInterface :: rest =>
      match endpoint_loop (endpoints usbInterface) 0 with
      | Some j => Some (i, j)
      | None => interface_loop rest (S i)
      end
  end.

Definition set_endpoint (c : UVCCamera) (e : option (nat * nat)) : UVCCamera :=
  mk_uvc (env_ c) (usbConnection_ c) (usbDevice_ c) e (width_ c) (height_ c)
         (streaming_ c) (frameBuffer_ c) (frameBufferSize_ c).

(** [UVCCamera::findBulkEndpoint] *)
Definition findBulkEndpoint (c : UVCCamera) (h : Host)
  : bool * UVCCamera * Host :=
  match usbDevice_ c with
  | Some dev =>
      match interface_loop dev 0 with
      | Some e => (true, set_endpoint c (Some e), set_refs h (S (h_global_refs h)))
      | None => (false, c, h)
      end
  | None => (false, c, h)
  end.

(** [UVCCamera::open] *)
Definition open (c : UVCCamera) (h : Host) (usbConnection : UsbDeviceConnection)
           (usbDevice : UsbDevice) : bool * UVCCamera * Host :=
  let c1 := mk_uvc true (Some usbConnection) (Some usbDevice) (bulkEndpoint_ c)
                   (width_ c) (height_ c) (streaming_ c) (frameBuffer_ c)
                   (frameBufferSize_ c) in
  let h1 := set_refs h (S (S (h_global_refs h))) in
  let '(found, h2) := findStreamingInterface c1 h1 in
  if negb found
  then (false, c1, hlog (LOGE "Failed to find streaming interface") h2)
  else
    let '(ok, c2, h3) := findBulkEndpoint c1 h2 in
    if negb ok
    then (false, c2, hlog (LOGE "Failed to find bulk endpoint") h3)
    else (true, c2, h3).

(** [UVCCamera::negotiateFormat] *)
Definition negotiateFormat (c : UVCCamera) : bool := true.

(** [UVCCamera::setFormat].  [None] stands for an [int] overflow in
    [width_ * height_ * 2] or for [new] throwing on a negative size. *)
Definition setFormat (c : UVCCamera) (h : Host) (width height : Z)
  : option (bool * UVCCamera * Host) :=
  let size := width * height * 2 in
  if (width * height <? INT_MIN) || (INT_MAX <? width * height)
     || (size <? 0) || (INT_MAX <? size)
  then None
  else
    let c1 := mk_uvc (env_ c) (usbConnection_ c) (usbDevice_ c)
                     (bulkEndpoint_ c) width height (streaming_ c)
                     (Some (h_next_array h)) size in
    Some (negotiateFormat c1, c1,
          set_arrays h (h_next_array h :: h_arrays h) (S (h_next_array h))).

Definition set_streaming (c : UVCCamera) (s : bool) : UVCCamera :=
  mk_uvc (env_ c) (usbConnection_ c) (usbDevice_ c) (bulkEndpoint_ c)
         (width_ c) (height_ c) s (frameBuffer_ c) (frameBufferSize_ c).

(** [UVCCamera::startStreaming] *)
Definition startStreaming (c : UVCCamera) (h : Host) : bool * UVCCamera * Host :=
  match bulkEndpoint_ c with
  | None => (false, c, hlog (LOGE "No bulk endpoint available") h)
  | Some _ => (true, set_streaming c true, h)
  end.

(** [UVCCamera::stopStreaming] *)
Definition stopStreaming (c : UVCCamera) (h : Host) : UVCCamera * Host :=
  (set_streaming c false, h).

(** [UVCCamera::bulkTransfer] *)
Definition bulkTransfer (c : UVCCamera) (h : Host) (length timeout : Z)
  : Z * Host :=
  match usbConnection_ c, bulkEndpoint_ c with
  | Some conn, Some _ =>
      (bulkTransferResult conn (h_transfers h) length, transfer h)
  | _, _ => (-1, h)
  end.

(** [UVCCamera::getFrame] *)
Definition getFrame (c : UVCCamera) (h : Host)
  : option (nat * Z) * UVCCamera * Host :=
  match streaming_ c, frameBuffer_ c with
  | true, Some frameBuffer =>
      let '(bytesRead, h1) := bulkTransfer c h (frameBufferSize_ c) 1000 in
      if 0 <? bytesRead then (Some (frameBuffer, bytesRead), c, h1)
      else (None, c, h1)
  | _, _ => (None, c, h)
  end.

(** [UVCCamera::releaseFrame] *)
Definition releaseFrame (c : UVCCamera) (h : Host) : UVCCamera * Host := (c, h).

(** Number of global references behind a member that may be null. *)
Definition held {A : Type} (o : option A) : nat :=
  match o with Some _ => 1%nat | None => 0%nat end.

(** [UVCCamera::close] *)
Definition close (c : UVCCamera) (h : Host) : UVCCamera * Host :=
  let '(c1, h1) := if streaming_ c then stopStreaming c h else (c, h) in
  let '(size, h2) :=
    match frameBuffer_ c1 with
    | Some a =>
        (0, set_arrays h1 (filter (fun b => negb (Nat.eqb b a)) (h_arrays h1))
                       (h_next_array h1))
    | None => (frameBufferSize_ c1, h1)
    end in
  if env_ c1
  then
    (mk_uvc false None None None (width_ c1) (height_ c1) (streaming_ c1)
            None size,
     set_refs h2 (h_global_refs h2
                  - (held (usbConnection_ c1) + held (usbDevice_ c1)
                     + held (bulkEndpoint_ c1)))%nat)
  else
    (mk_uvc false (usbConnection_ c1) (usbDevice_ c1) (bulkEndpoint_ c1)
            (width_ c1) (height_ c1) (streaming_ c1) None size,
     h2).

End UVC.

(** ** Concrete drivers, used to run the code *)

(** A driver that follows the V4L2 rules for a pool of four buffers of
    eight bytes: a buffer is accepted by [VIDIOC_QBUF] when it is a capture/mmap buffer of
    the pool that the driver does not own already, and [VIDIOC_DQBUF] hands
    out the buffer queued longest ago. *)
Definition accepts_qbuf (w : World) (b : v4l2_buffer) : bool :=
  (b_type b =? V4L2_BUF_TYPE_VIDEO_CAPTURE)
  && (b_memory b =? V4L2_MEMORY_MMAP)
  && (0 <=? b_index b) && (b_index b <? 4)
  && negb (existsb (Z.eqb (b_index b)) (w_queued w)).

Definition oldest_queued (w : World) : DqReply :=
  match rev (w_queued w) with
  | [] => DqAgain
  | i :: _ => DqOk i 8
  end.

Definition good_kernel : Kernel :=
  mk_kernel
    (fun _ _ => 3)
    (fun _ _ => Some (Z.lor V4L2_CAP_VIDEO_CAPTURE V4L2_CAP_STREAMING))
    (fun _ _ fmt => Some fmt)
    (fun _ _ count => Some count)
    (fun _ _ i => Some (8, i * 8))
    (fun _ _ _ _ => true)
    (fun w _ b => accepts_qbuf w b)
    (fun w _ => oldest_queued w)
    (fun _ _ => true)
    (fun _ _ => true)
    (fun _ _ => Null)
    (fun _ _ => zero_buffer)
    (fun _ _ => [1; 2; 3; 4; 5; 6; 7; 8])
    (fun _ _ => true).

(** [good_kernel] with another verdict for one of the calls. *)
Definition with_qbuf (K : Kernel) (f : World -> Z -> v4l2_buffer -> bool)
  : Kernel :=
  mk_kernel (sys_open K) (ioctl_querycap K) (ioctl_s_fmt K) (ioctl_reqbufs K)
            (ioctl_querybuf K) (sys_mmap K) f (ioctl_dqbuf K)
            (ioctl_streamon K) (ioctl_streamoff K) (fresh_ptr K)
            (fresh_buffer K) (region_bytes K) (jni_new_byte_array K).
Definition with_querycap (K : Kernel) (f : World -> Z -> option Z) : Kernel :=
  mk_kernel (sys_open K) f (ioctl_s_fmt K) (ioctl_reqbufs K)
            (ioctl_querybuf K) (sys_mmap K) (ioctl_qbuf K) (ioctl_dqbuf K)
            (ioctl_streamon K) (ioctl_streamoff K) (fresh_ptr K)
            (fresh_buffer K) (region_bytes K) (jni_new_byte_array K).
Definition with_s_fmt (K : Kernel)
           (f : World -> Z -> pix_format -> option pix_format) : Kernel :=
  mk_kernel (sys_open K) (ioctl_querycap K) f (ioctl_reqbufs K)
            (ioctl_querybuf K) (sys_mmap K) (ioctl_qbuf K) (ioctl_dqbuf K)
            (ioctl_streamon K) (ioctl_streamoff K) (fresh_ptr K)
            (fresh_buffer K) (region_bytes K) (jni_new_byte_array K).

(** ** Sequences of calls on the kernel backend *)

Inductive Op : Type :=
| OpOpen (device_path : string)
| OpOpenByFd (fd : Z)
| OpSetFormat (width height pixelFormat : Z)
| OpStartStreaming
| OpStopStreaming
| OpGetFrame
| OpReleaseFrame
| OpClose.

(** One call; [None] when the call ends in a C++ exception. *)
Definition step (K : Kernel) (op : Op) (s : V4L2Camera * World)
  : option (V4L2Camera * World) :=
  let '(c, w) := s in
  match op with
  | OpOpen path => let '(_, c', w') := open K c w path in Some (c', w')
  | OpOpenByFd fd => let '(_, c', w') := openByFd K c w fd in Some (c', w')
  | OpSetFormat wd ht pf =>
      let '(_, c', w') := setFormat K c w wd ht pf in Some (c', w')
  | OpStartStreaming =>
      match startStreaming K c w with
      | Some (_, c', w') => Some (c', w')
      | None => None
      end
  | OpStopStreaming => let '(_, c', w') := stopStreaming K c w in Some (c', w')
  | OpGetFrame => let '(_, c', w') := getFrame K c w in Some (c', w')
  | OpReleaseFrame => Some (releaseFrame K c w)
  | OpClose => Some (close K c w)
  end.

(** The states a sequence of calls goes through, the first one left out. *)
Fixpoint states (K : Kernel) (ops : list Op) (s : V4L2Camera * World)
  : list (V4L2Camera * World) :=
  match ops with
  | [] => []
  | op :: rest =>
      match step K op s with
      | Some s' => s' :: states K rest s'
      | None => []
      end
  end.

(** The state after a sequence of calls. *)
Fixpoint run (K : Kernel) (ops : list Op) (s : V4L2Camera * World)
  : option (V4L2Camera * World) :=
  match ops with
  | [] => Some s
  | op :: rest =>
      match step K op s with
      | Some s' => run K rest s'
      | None => None
      end
  end.

(** * Predicates and concrete inputs of the properties *)

(** The region [m] does not start at [a]. *)
Definition not_at (a : nat) (m : nat * Z) : bool := negb (Nat.eqb (fst m) a).



(** Unmapping touches the memory part of the world only. *)
Definition same_outside_memory (w w' : World) : Prop :=
  w_queued w' = w_queued w /\ w_inflight w' = w_inflight w /\
  w_opened w' = w_opened w /\ w_offered w' = w_offered w /\
  w_adopted w' = w_adopted w /\ w_closed w' = w_closed w /\
  w_log w' = w_log w.


(** The pool members of the object are all released. *)
Definition no_pool (c : V4L2Camera) : Prop :=
  buffers_ c = None /\ buffer_start_ c = None /\ buffer_count_ c = 0.




(** The object after [open] on the good kernel. *)
Definition opened_camera : V4L2Camera := set_fd V4L2Camera_new 3.

(** A driver that takes buffer 0 and turns down buffer 1. *)
Definition kernel_rejects_buffer_1 : Kernel :=
  with_qbuf good_kernel
            (fun w _ b => accepts_qbuf w b && negb (b_index b =? 1)).

(** Streaming started, stopped and started again, then [close]. *)
Definition restart_then_close : list Op :=
  [OpOpen "/dev/video0"; OpSetFormat 640 480 V4L2_PIX_FMT_YUYV;
   OpStartStreaming; OpStopStreaming;
   OpSetFormat 640 480 V4L2_PIX_FMT_YUYV; OpStartStreaming; OpClose].

(** The state a sequence of calls on a new object ends in. *)
Definition after (K : Kernel) (ops : list Op) : V4L2Camera * World :=
  match run K ops (V4L2Camera_new, world0) with
  | Some s => s
  | None => (V4L2Camera_new, world0)
  end.

(** The kernel backend after open, setFormat and startStreaming. *)
Definition streaming_state : V4L2Camera * World :=
  after good_kernel [OpOpen "/dev/video0";
                     OpSetFormat 640 480 V4L2_PIX_FMT_YUYV; OpStartStreaming].

(** A webcam: a control interface, then a streaming interface with one
    bulk IN endpoint; the connection lets every interface be claimed and
    every transfer bring eight bytes. *)
Definition webcam : UVC.UsbDevice :=
  [UVC.mk_interface 14 1 [];
   UVC.mk_interface 14 2 [UVC.mk_endpoint 2 128]].

Definition willing_connection : UVC.UsbDeviceConnection :=
  UVC.mk_connection (fun _ => true) (fun _ _ => 8).

(** The USB backend after open, setFormat(640, 480) and startStreaming. *)
Definition uvc_streaming_state : UVC.UVCCamera * UVC.Host :=
  let '(_, c1, h1) :=
    UVC.open UVC.UVCCamera_new UVC.host0 willing_connection webcam in
  match UVC.setFormat c1 h1 640 480 with
  | Some (_, c2, h2) =>
      let '(_, c3, h3) := UVC.startStreaming c2 h2 in (c3, h3)
  | None => (c1, h1)
  end.

(** What [setFormat] asks the driver for. *)
Definition requested_format (width height pixelFormat : Z) : pix_format :=
  mk_pix (to_u32 width) (to_u32 height) (to_u32 pixelFormat) V4L2_FIELD_NONE.

(** The queues, the mappings and the handles of the world are the same. *)
Definition same_device (w w' : World) : Prop :=
  w_mappings w' = w_mappings w /\ w_queued w' = w_queued w /\
  w_inflight w' = w_inflight w /\ w_opened w' = w_opened w /\
  w_adopted w' = w_adopted w /\ w_closed w' = w_closed w.

(** A driver that answers every request with 320x240 MJPEG. *)
Definition kernel_substitutes : Kernel :=
  with_s_fmt good_kernel
             (fun _ _ _ => Some (mk_pix 320 240 V4L2_PIX_FMT_MJPEG 1)).

Definition is_streaming_interface (u : UVC.UsbInterface) : bool :=
  (UVC.getInterfaceClass u =? UVC.UVC_INTERFACE_CLASS)
  && (UVC.getInterfaceSubclass u =? UVC.UVC_INTERFACE_SUBCLASS_STREAMING).

Definition is_bulk_in (e : UVC.UsbEndpoint) : bool :=
  (UVC.getType e =? UVC.USB_ENDPOINT_XFER_BULK)
  && (UVC.getDirection e =? UVC.USB_DIR_IN).

(** Interface [k] of the device is a streaming interface that the
    connection lets the caller claim. *)
Definition claimable (conn : UVC.UsbDeviceConnection) (dev : UVC.UsbDevice)
           (k : nat) : Prop :=
  exists u, nth_error dev k = Some u /\ is_streaming_interface u = true /\
            UVC.claimInterface conn k = true.

Definition first_claimable (conn : UVC.UsbDeviceConnection)
           (dev : UVC.UsbDevice) (k : nat) : Prop :=
  claimable conn dev k /\ forall k', (k' < k)%nat -> ~ claimable conn dev k'.

(** Endpoint [j] of interface [i] of the device is a bulk IN endpoint. *)
Definition bulk_in_at (dev : UVC.UsbDevice) (i j : nat) : Prop :=
  exists u e, nth_error dev i = Some u /\
              nth_error (UVC.endpoints u) j = Some e /\ is_bulk_in e = true.

Definition first_bulk_in (dev : UVC.UsbDevice) (i j : nat) : Prop :=
  bulk_in_at dev i j /\
  forall i' j', bulk_in_at dev i' j' ->
                (i < i')%nat \/ (i = i' /\ (j <= j')%nat).

Definition no_streaming_interface_error : LogLine :=
  LOGE "Failed to find streaming interface".
Definition no_bulk_endpoint_error : LogLine :=
  LOGE "Failed to find bulk endpoint".

(** A composite device: a mass-storage interface with a bulk IN endpoint,
    then a streaming interface whose only endpoint is isochronous. *)
Definition composite_device : UVC.UsbDevice :=
  [UVC.mk_interface 8 6 [UVC.mk_endpoint 2 128];
   UVC.mk_interface 14 2 [UVC.mk_endpoint 1 128]].

(** Two streaming interfaces, on a connection that refuses the first. *)
Definition two_streaming_interfaces : UVC.UsbDevice :=
  [UVC.mk_interface 14 2 [UVC.mk_endpoint 2 128];
   UVC.mk_interface 14 2 [UVC.mk_endpoint 2 128]].

Definition refuses_interface_0 : UVC.UsbDeviceConnection :=
  UVC.mk_connection (fun i => negb (Nat.eqb i 0)) (fun _ _ => 8).

Definition requeue_error : LogLine := LOGE "Failed to requeue buffer: %s".

(** One frame taken and given back, then streaming stopped. *)
Definition stopped_state : V4L2Camera * World :=
  after good_kernel [OpOpen "/dev/video0";
                     OpSetFormat 640 480 V4L2_PIX_FMT_YUYV; OpStartStreaming;
                     OpGetFrame; OpReleaseFrame; OpStopStreaming].

(** A caller that never asks for a frame twice in a row: after each
    [getFrame] the next call, if any, is [releaseFrame].  [pending] tells
    that the last call was [getFrame]. *)
Fixpoint disciplined (pending : bool) (ops : list Op) : bool :=
  match ops with
  | [] => true
  | OpReleaseFrame :: rest => disciplined false rest
  | OpGetFrame :: rest => negb pending && disciplined true rest
  | _ => false
  end.

(** Along the run, the driver accepts every [VIDIOC_QBUF] that
    [releaseFrame] issues while a buffer is in flight. *)
Fixpoint releases_accepted (K : Kernel) (ops : list Op)
         (s : V4L2Camera * World) : Prop :=
  match ops with
  | [] => True
  | op :: rest =>
      (op = OpReleaseFrame -> w_inflight (snd s) <> [] ->
       ioctl_qbuf K (snd s) (fd_ (fst s)) (current_buffer_ (fst s)) = true) /\
      match step K op s with
      | Some s' => releases_accepted K rest s'
      | None => True
      end
  end.

Definition at_most_one_in_flight (s : V4L2Camera * World) : Prop :=
  (List.length (w_inflight (snd s)) <= 1)%nat.

(** A driver that refuses the [VIDIOC_QBUF] issued as the nineteenth system
    call; after open, setFormat, startStreaming and one [getFrame], that
    call is the requeue of [releaseFrame]. *)
Definition kernel_drops_requeue : Kernel :=
  with_qbuf good_kernel
            (fun w _ b => accepts_qbuf w b && negb (Nat.eqb (w_tick w) 18)).

Definition get_release_get : list Op :=
  [OpGetFrame; OpReleaseFrame; OpGetFrame].

Definition opened_state : V4L2Camera * World :=
  after good_kernel [OpOpen "/dev/video0"].

Definition format_state : V4L2Camera * World :=
  after good_kernel [OpOpen "/dev/video0";
                     OpSetFormat 640 480 V4L2_PIX_FMT_YUYV].

Definition drops_requeue_streaming : V4L2Camera * World :=
  after kernel_drops_requeue
        [OpOpen "/dev/video0"; OpSetFormat 640 480 V4L2_PIX_FMT_YUYV;
         OpStartStreaming].

Definition first_frame : option (ptr * Z) * V4L2Camera * World :=
  getFrame good_kernel (fst streaming_state) (snd streaming_state).

(** The descriptor the object holds, if any. *)
Definition held_handle (c : V4L2Camera) : list Z :=
  if 0 <=? fd_ c then [fd_ c] else [].

(** Every descriptor the object acquired is either the one it holds or
    has been closed once. *)
Definition balanced (c : V4L2Camera) (w : World) : Prop :=
  Permutation (w_opened w ++ w_adopted w) (held_handle c ++ w_closed w).

Definition same_handles (w w' : World) : Prop :=
  w_opened w' = w_opened w /\ w_adopted w' = w_adopted w /\
  w_closed w' = w_closed w.

Definition is_open_op (op : Op) : bool :=
  match op with
  | OpOpen _ | OpOpenByFd _ => true
  | _ => false
  end.

(** Along the run, [open] and [openByFd] are only called while the object
    holds no descriptor. *)
Fixpoint opens_when_closed (K : Kernel) (ops : list Op)
         (s : V4L2Camera * World) : Prop :=
  match ops with
  | [] => True
  | op :: rest =>
      (is_open_op op = true -> fd_ (fst s) < 0) /\
      match step K op s with
      | Some s' => opens_when_closed K rest s'
      | None => True
      end
  end.

(** A driver whose capability query fails. *)
Definition kernel_no_capabilities : Kernel :=
  with_querycap good_kernel (fun _ _ => None).

Definition open_close_twice : list Op :=
  [OpOpen "/dev/video0"; OpClose; OpOpenByFd 7; OpStartStreaming; OpClose].

(** ** The remaining entry points of the JNI binding (uvc_camera.cpp)

    [native_ptr] is [None] for a null pointer.  A result of [None] around
    the triple stands for a C++ exception leaving the call. *)

(** [nativeCreate]: a new object, nothing else. *)
Definition nativeCreate (w : World) : option V4L2Camera * World :=
  (Some V4L2Camera_new, w).

(** [V4L2Camera::~V4L2Camera] *)
Definition V4L2Camera_delete (K : Kernel) (c : V4L2Camera) (w : World) : World :=
  snd (close K c w).

(** [nativeDestroy]: [delete camera] runs the destructor. *)
Definition nativeDestroy (K : Kernel) (native_ptr : option V4L2Camera)
           (w : World) : World :=
  match native_ptr with
  | Some camera => V4L2Camera_delete K camera w
  | None => w
  end.

(** [nativeOpen] *)
Definition nativeOpen (K : Kernel) (native_ptr : option V4L2Camera) (w : World)
           (device_path : string) : bool * option V4L2Camera * World :=
  match native_ptr with
  | None => (false, None, log (LOGE "Invalid camera pointer") w)
  | Some camera =>
      let '(result, c1, w1) := open K camera w device_path in
      (if result then true else false, Some c1, w1)
  end.

(** [nativeOpenByFd] *)
Definition nativeOpenByFd (K : Kernel) (native_ptr : option V4L2Camera)
           (w : World) (fd : Z) : bool * option V4L2Camera * World :=
  match native_ptr with
  | None => (false, None, log (LOGE "Invalid camera pointer") w)
  | Some camera =>
      let '(result, c1, w1) := openByFd K camera w fd in
      (if result then true else false, Some c1, w1)
  end.

(** [nativeClose] *)
Definition nativeClose (K : Kernel) (native_ptr : option V4L2Camera)
           (w : World) : option V4L2Camera * World :=
  match native_ptr with
  | Some camera => let '(c1, w1) := close K camera w in (Some c1, w1)
  | None => (None, w)
  end.

(** [nativeStartStreaming] *)
Definition nativeStartStreaming (K : Kernel) (native_ptr : option V4L2Camera)
           (w : World) : option (bool * option V4L2Camera * World) :=
  match native_ptr with
  | None => Some (false, None, log (LOGE "Invalid camera pointer") w)
  | Some camera =>
      match startStreaming K camera w with
      | Some (result, c1, w1) => Some (if result then true else false, Some c1, w1)
      | None => None
      end
  end.

(** [nativeStopStreaming]: the result of [stopStreaming] is dropped. *)
Definition nativeStopStreaming (K : Kernel) (native_ptr : option V4L2Camera)
           (w : World) : option V4L2Camera * World :=
  match native_ptr with
  | Some camera =>
      let '(_, c1, w1) := stopStreaming K camera w in (Some c1, w1)
  | None => (None, w)
  end.

(** [getYUYVFormat] and [getMJPEGFormat] *)
Definition getYUYVFormat : Z := V4L2_PIX_FMT_YUYV.
Definition getMJPEGFormat : Z := V4L2_PIX_FMT_MJPEG.

(** [UVCCamera::isStreaming] *)
Definition UVC_isStreaming (c : UVC.UVCCamera) : bool := UVC.streaming_ c.

(** ** Predicates of the further properties *)

(** The memory part of the world is the same. *)
Definition same_memory (w w' : World) : Prop :=
  w_mappings w' = w_mappings w /\ w_next_addr w' = w_next_addr w /\
  w_strays w' = w_strays w.

(** Every live region starts below the place of the next one. *)
Definition addresses_below_next (w : World) : Prop :=
  forall m, In m (w_mappings w) -> (fst m < w_next_addr w)%nat.

(** The object holds a pool of [n] slots placed from address [base] on:
    both arrays have [n] elements, slot [i] points to address [base + i] and
    its descriptor carries index [i]. *)
Definition pool_at (base n : nat) (c : V4L2Camera) : Prop :=
  exists bs ps,
    buffers_ c = Some bs /\ buffer_start_ c = Some ps /\
    List.length bs = n /\ List.length ps = n /\
    buffer_count_ c = Z.of_nat n /\
    forall i, (i < n)%nat ->
              nth i ps Null = Addr (base + i) /\
              b_index (nth i bs zero_buffer) = Z.of_nat i.

(** The region of every slot of the pool is live, with the length held in
    its descriptor. *)
Definition pool_live (base n : nat) (c : V4L2Camera) (w : World) : Prop :=
  forall i, (i < n)%nat ->
            In ((base + i)%nat,
                b_length (nth i (match buffers_ c with
                                 | Some bs => bs
                                 | None => []
                                 end) zero_buffer))
               (w_mappings w).

(** The two arrays of the object are both null, or both hold
    [buffer_count_] elements. *)
Definition pool_shaped (c : V4L2Camera) : Prop :=
  (buffers_ c = None /\ buffer_start_ c = None /\ buffer_count_ c = 0) \/
  (exists bs ps,
     buffers_ c = Some bs /\ buffer_start_ c = Some ps /\
     Z.of_nat (List.length bs) = buffer_count_ c /\
     Z.of_nat (List.length ps) = buffer_count_ c /\
     2 <= buffer_count_ c <= INT_MAX).

(** The indices [0 .. n-1]. *)
Definition indices (n : nat) : list Z := map Z.of_nat (seq 0 n).

(** A driver whose [VIDIOC_DQBUF] has a frame in buffer 1 once, as the
    eighteenth system call, and nothing afterwards. *)
Definition kernel_one_frame : Kernel :=
  mk_kernel (sys_open good_kernel) (ioctl_querycap good_kernel)
            (ioctl_s_fmt good_kernel) (ioctl_reqbufs good_kernel)
            (ioctl_querybuf good_kernel) (sys_mmap good_kernel)
            (ioctl_qbuf good_kernel)
            (fun w _ => if Nat.eqb (w_tick w) 17 then DqOk 1 8 else DqAgain)
            (ioctl_streamon good_kernel) (ioctl_streamoff good_kernel)
            (fresh_ptr good_kernel) (fresh_buffer good_kernel)
            (region_bytes good_kernel) (jni_new_byte_array good_kernel).

(** The first [i] slots of a pool of [n] slots placed from [base] on are
    mapped: their regions sit in front of the regions [old] that were live
    before, one per address, and the next region goes to [base + i]. *)
Definition built (base : nat) (old : list (nat * Z)) (i n : nat)
           (c : V4L2Camera) (w : World) : Prop :=
  exists bs ps regs,
    buffers_ c = Some bs /\ buffer_start_ c = Some ps /\
    List.length bs = n /\ List.length ps = n /\
    w_next_addr w = (base + i)%nat /\
    w_mappings w = regs ++ old /\ map fst regs = rev (seq base i) /\
    forall j, (j < i)%nat ->
              nth j ps Null = Addr (base + j) /\
              b_index (nth j bs zero_buffer) = Z.of_nat j /\
              In ((base + j)%nat, b_length (nth j bs zero_buffer))
                 (w_mappings w).

(** The region [m] starts in [lo, hi). *)
Definition starts_in (lo hi : nat) (m : nat * Z) : bool :=
  Nat.leb lo (fst m) && Nat.ltb (fst m) hi.

(** Calls that use an existing pool without building or freeing one. *)
Definition quiet_op (op : Op) : bool :=
  match op with
  | OpSetFormat _ _ _ | OpStopStreaming | OpGetFrame | OpReleaseFrame => true
  | _ => false
  end.

(** The kernel backend after [initBuffers] on the opened object. *)
Definition built_state : V4L2Camera * World :=
  match initBuffers good_kernel opened_camera world0 with
  | Some (_, c, w) => (c, w)
  | None => (opened_camera, world0)
  end.

(** The kernel backend after streaming was started and one frame was taken
    and given back. *)
Definition used_state : V4L2Camera * World :=
  after good_kernel [OpOpen "/dev/video0";
                     OpSetFormat 640 480 V4L2_PIX_FMT_YUYV; OpStartStreaming;
                     OpGetFrame; OpReleaseFrame].

(** The kernel backend after [initBuffers] on the object with its format
    set. *)
Definition pool_built_state : V4L2Camera * World :=
  match initBuffers good_kernel (fst format_state) (snd format_state) with
  | Some (_, c, w) => (c, w)
  | None => format_state
  end.

(** The USB backend after a second [setFormat], to 320x240. *)
Definition uvc_reformatted_state : UVC.UVCCamera * UVC.Host :=
  match UVC.setFormat (fst uvc_streaming_state) (snd uvc_streaming_state)
                      320 240 with
  | Some (_, c, h) => (c, h)
  | None => uvc_streaming_state
  end.

(** ** Inputs and predicates of the revised properties *)




(** The caller gives back each frame before it asks for another: along the
    run, [getFrame] is only called when no frame is with the caller, that
    is when the last [getFrame] that returned a frame has been followed by
    a [releaseFrame].  A [getFrame] that returns no frame may be repeated.
    [pending] tells that a frame was handed out and not given back. *)
Fixpoint releases_each_frame (K : Kernel) (pending : bool) (ops : list Op)
         (s : V4L2Camera * World) : Prop :=
  match ops with
  | [] => True
  | OpGetFrame :: rest =>
      pending = false /\
      releases_each_frame K
        (match fst (fst (getFrame K (fst s) (snd s))) with
         | Some _ => true
         | None => false
         end)
        rest
        (snd (fst (getFrame K (fst s) (snd s))),
         snd (getFrame K (fst s) (snd s)))
  | OpReleaseFrame :: rest =>
      releases_each_frame K false rest (releaseFrame K (fst s) (snd s))
  | _ :: _ => False
  end.

(** A caller that polls: a frame taken and given back, then two calls that
    find no frame, then a [releaseFrame]. *)
Definition polling_rounds : list Op :=
  [OpGetFrame; OpReleaseFrame; OpGetFrame; OpGetFrame; OpReleaseFrame].

(** * Properties *)

(** ** Memory: what [munmap] and the loop of [freeBuffers] leave mapped *)

Lemma filter_not_at_id (a : nat) (ms : list (nat * Z)) :
  existsb (fun m => Nat.eqb (fst m) a) ms = false ->
  filter (not_at a) ms = ms.
Proof.
  induction ms as [|m ms IH]; simpl; intro H; [reflexivity|].
  apply orb_false_iff in H. destruct H as [Hm Hms].
  unfold not_at at 1. rewrite Hm. simpl. now rewrite IH.
Qed.

Lemma munmap_mappings (a : nat) (len : Z) (w : World) :
  w_mappings (sys_munmap (Addr a) len w) = filter (not_at a) (w_mappings w).
Proof.
  unfold sys_munmap, is_mapped.
  destruct (existsb _ (w_mappings w)) eqn:E; simpl.
  - reflexivity.
  - symmetry. now apply filter_not_at_id.
Qed.




Lemma upd_length {A : Type} (i : nat) (x : A) (l : list A) :
  List.length (upd i x l) = List.length l.
Proof.
  revert i; induction l as [|h t IH]; intros [|i]; simpl; auto.
Qed.

Lemma nth_upd_same {A : Type} (i : nat) (x d : A) (l : list A) :
  (i < List.length l)%nat -> nth i (upd i x l) d = x.
Proof.
  revert i; induction l as [|h t IH]; intros [|i]; simpl; intro H;
    try lia; auto. apply IH. lia.
Qed.

Lemma nth_upd_other {A : Type} (i j : nat) (x d : A) (l : list A) :
  i <> j -> nth j (upd i x l) d = nth j l d.
Proof.
  revert i j; induction l as [|h t IH]; intros [|i] [|j]; simpl; intro H;
    try congruence; auto.
Qed.

Lemma new_array_length {A : Type} (n : nat) (f : nat -> A) :
  List.length (new_array n f) = n.
Proof. unfold new_array. now rewrite length_map, length_seq. Qed.

Lemma freeBuffers_camera (c : V4L2Camera) (w : World) :
  fst (freeBuffers c w) = set_pool c None None 0.
Proof. reflexivity. Qed.




Lemma same_outside_memory_refl (w : World) : same_outside_memory w w.
Proof. repeat split. Qed.

Lemma same_outside_memory_trans (w1 w2 w3 : World) :
  same_outside_memory w1 w2 -> same_outside_memory w2 w3 ->
  same_outside_memory w1 w3.
Proof.
  unfold same_outside_memory. intros (?&?&?&?&?&?&?) (?&?&?&?&?&?&?).
  repeat split; congruence.
Qed.

Lemma sys_munmap_frame (p : ptr) (len : Z) (w : World) :
  same_outside_memory w (sys_munmap p len w).
Proof.
  unfold sys_munmap. destruct p as [| |a];
    [repeat split|repeat split|destruct (is_mapped a w); repeat split].
Qed.

Lemma unmap_loop_frame (fuel : nat) :
  forall i ps bs w, same_outside_memory w (unmap_loop fuel i ps bs w).
Proof.
  induction fuel as [|fuel IH]; intros i ps bs w; cbn [unmap_loop].
  - apply same_outside_memory_refl.
  - eapply same_outside_memory_trans; [|apply IH].
    destruct (ptr_eqb _ Null || ptr_eqb _ MapFailed).
    + apply same_outside_memory_refl.
    + apply sys_munmap_frame.
Qed.

Lemma freeBuffers_frame (c : V4L2Camera) (w : World) :
  same_outside_memory w (snd (freeBuffers c w)).
Proof.
  unfold freeBuffers. simpl. destruct (buffer_start_ c).
  - apply unmap_loop_frame.
  - apply same_outside_memory_refl.
Qed.

Lemma map_loop_fd (K : Kernel) (fuel : nat) :
  forall i c w r c' w', map_loop K fuel i c w = (r, c', w') -> fd_ c' = fd_ c.
Proof.
  induction fuel as [|fuel IH]; intros i c w r c' w' H; cbn [map_loop] in H.
  - now injection H as _ <- _.
  - destruct (ioctl_querybuf K w (fd_ c) (Z.of_nat i)) as [[len off]|].
    + destruct (sys_mmap K (tick w) len (fd_ c) off).
      * apply IH in H. exact H.
      * now injection H as _ <- _.
    + now injection H as _ <- _.
Qed.







(** ** [startStreaming] after the pool is built *)

Lemma queue_loop_mappings (K : Kernel) (fuel : nat) :
  forall i c w r w',
    queue_loop K fuel i c w = (r, w') -> w_mappings w' = w_mappings w.
Proof.
  induction fuel as [|fuel IH]; intros i c w r w' H; cbn [queue_loop] in H.
  - now injection H as _ <-.
  - destruct (ioctl_qbuf K w (fd_ c) (capture_buffer (Z.of_nat i))).
    + apply IH in H. exact H.
    + now injection H as _ <-.
Qed.

(** Whatever makes [startStreaming] fail once [initBuffers] has built the
    pool, the pool built by [initBuffers] is what the call leaves behind:
    no failure path of [startStreaming] calls [freeBuffers]. *)
Lemma startStreaming_keeps_built_pool (K : Kernel) (c : V4L2Camera) (w : World)
      (c1 c2 : V4L2Camera) (w1 w2 : World) :
  initBuffers K c w = Some (true, c1, w1) ->
  startStreaming K c w = Some (false, c2, w2) ->
  c2 = c1 /\ w_mappings w2 = w_mappings w1.
Proof.
  intros Hinit Hrun. unfold startStreaming in Hrun. rewrite Hinit in Hrun.
  destruct (queue_loop K (Z.to_nat (buffer_count_ c1)) 0 c1 w1)
    as [[|] wq] eqn:Eq.
  - destruct (ioctl_streamon K wq (fd_ c1)); [discriminate|].
    injection Hrun as <- <-. split; [reflexivity|].
    simpl. eapply queue_loop_mappings; exact Eq.
  - injection Hrun as <- <-. split; [reflexivity|].
    eapply queue_loop_mappings; exact Eq.
Qed.

(** C1.  The code at a failing input: the driver grants and maps four
    buffers, accepts buffer 0 and turns down buffer 1.  [startStreaming]
    returns [false] and leaves the four regions mapped, the pool in the
    object and buffer 0 with the driver: nothing is rolled back. *)
Theorem startStreaming_failure_keeps_pool :
  exists c' w',
    startStreaming kernel_rejects_buffer_1 opened_camera world0
      = Some (false, c', w') /\
    streaming_ c' = false /\
    buffer_count_ c' = 4 /\
    buffer_start_ c' = Some [Addr 1; Addr 2; Addr 3; Addr 4] /\
    w_mappings w' = [(4%nat, 8); (3%nat, 8); (2%nat, 8); (1%nat, 8)] /\
    w_queued w' = [0] /\
    hd_error (w_log w') = Some (LOGE "Failed to queue buffer: %s").
Proof.
  eexists _, _. split; [vm_compute; reflexivity|]. repeat split.
Qed.

(** ** [close] after streaming was started twice *)

(** C7.  The code at a failing input: streaming is started, stopped and
    started again, then the device is closed.  The second [initBuffers]
    overwrites the arrays of the first pool without unmapping it, so after
    [close] the object is closed and holds no pool while the four regions
    of the first pool are still mapped. *)
Theorem close_after_restart_leaves_mappings :
  exists c w,
    run good_kernel restart_then_close (V4L2Camera_new, world0) = Some (c, w) /\
    fd_ c = -1 /\ streaming_ c = false /\ no_pool c /\
    w_closed w = [3] /\
    w_mappings w = [(4%nat, 8); (3%nat, 8); (2%nat, 8); (1%nat, 8)].
Proof.
  eexists _, _. split; [vm_compute; reflexivity|]. repeat split.
Qed.

(** ** [setFormat] *)

(** C3, as stated, fails: while streaming is active, [setFormat] succeeds
    on both backends, and on the USB backend it replaces the stored width,
    height and frame buffer. *)
Lemma setFormat_while_streaming_takes_effect :
  UVC.streaming_ (fst uvc_streaming_state) = true /\
  UVC.width_ (fst uvc_streaming_state) = 640 /\
  UVC.frameBuffer_ (fst uvc_streaming_state) = Some 0%nat /\
  (exists c' h',
     UVC.setFormat (fst uvc_streaming_state) (snd uvc_streaming_state) 320 240
       = Some (true, c', h') /\
     UVC.streaming_ c' = true /\
     UVC.width_ c' = 320 /\ UVC.height_ c' = 240 /\
     UVC.frameBufferSize_ c' = 153600 /\
     UVC.frameBuffer_ c' = Some 1%nat) /\
  streaming_ (fst streaming_state) = true /\
  fst (fst (setFormat good_kernel (fst streaming_state) (snd streaming_state)
                      320 240 V4L2_PIX_FMT_MJPEG)) = true.
Proof.
  split; [reflexivity|]. split; [reflexivity|]. split; [reflexivity|].
  split; [|split; reflexivity].
  eexists _, _. split; [vm_compute; reflexivity|]. repeat split.
Qed.

(** C3, amended.  [setFormat] checks no state on either backend.  On the
    kernel backend, in every state, it returns the verdict of the driver on
    [VIDIOC_S_FMT], leaves the object as it was and touches neither the
    mappings, the queues nor the handles.  On the USB backend, in every
    state, for a frame size [width * height * 2] between 0 and [INT_MAX] it
    succeeds, stores width and height and takes a new frame buffer of that
    size, leaving the streaming flag as it was. *)
Theorem setFormat_has_no_state_guard (K : Kernel) (c : V4L2Camera) (w : World)
        (width height pixelFormat : Z)
        (uc : UVC.UVCCamera) (h : UVC.Host) (uwidth uheight : Z) :
  (exists w',
     setFormat K c w width height pixelFormat
       = (match ioctl_s_fmt K w (fd_ c)
                  (requested_format width height pixelFormat) with
          | Some _ => true
          | None => false
          end, c, w') /\
     same_device w w')
  /\
  (0 <= uwidth * uheight * 2 <= INT_MAX ->
   exists c' h',
     UVC.setFormat uc h uwidth uheight = Some (true, c', h') /\
     UVC.width_ c' = uwidth /\ UVC.height_ c' = uheight /\
     UVC.frameBufferSize_ c' = uwidth * uheight * 2 /\
     UVC.frameBuffer_ c' = Some (UVC.h_next_array h) /\
     UVC.streaming_ c' = UVC.streaming_ uc).
Proof.
  split.
  - unfold setFormat, requested_format.
    destruct (ioctl_s_fmt K w (fd_ c) _); eexists; split;
      try reflexivity; repeat split.
  - intros Hsize. unfold UVC.setFormat.
    set (p := uwidth * uheight) in *.
    replace ((p <? INT_MIN) || (INT_MAX <? p) || (p * 2 <? 0)
             || (INT_MAX <? p * 2)) with false.
    + eexists _, _. split; [reflexivity|]. repeat split.
    + symmetry. unfold INT_MIN, INT_MAX in *.
      repeat (apply orb_false_iff; split); apply Z.ltb_ge; lia.
Qed.

Lemma setFormat_has_no_state_guard_witness :
  exists c' h',
    UVC.setFormat (fst uvc_streaming_state) (snd uvc_streaming_state) 320 240
      = Some (true, c', h') /\
    UVC.width_ c' = 320 /\ UVC.height_ c' = 240 /\
    UVC.frameBufferSize_ c' = 320 * 240 * 2 /\
    UVC.frameBuffer_ c' = Some (UVC.h_next_array (snd uvc_streaming_state)) /\
    UVC.streaming_ c' = UVC.streaming_ (fst uvc_streaming_state).
Proof.
  apply (setFormat_has_no_state_guard good_kernel V4L2Camera_new world0 0 0 0
           (fst uvc_streaming_state) (snd uvc_streaming_state) 320 240).
  unfold INT_MAX. lia.
Defined.

(** C8, as stated, fails: a driver that honours 640x480 YUYV and a driver
    that substitutes 320x240 MJPEG give the caller the same return value
    and the same object, through [setFormat] and through
    [nativeSetFormat]. *)
Lemma setFormat_result_hides_negotiated_format :
  ioctl_s_fmt good_kernel world0 3
              (requested_format 640 480 V4L2_PIX_FMT_YUYV)
    = Some (mk_pix 640 480 V4L2_PIX_FMT_YUYV 1) /\
  ioctl_s_fmt kernel_substitutes world0 3
              (requested_format 640 480 V4L2_PIX_FMT_YUYV)
    = Some (mk_pix 320 240 V4L2_PIX_FMT_MJPEG 1) /\
  fst (setFormat good_kernel opened_camera world0 640 480 V4L2_PIX_FMT_YUYV)
    = (true, opened_camera) /\
  fst (setFormat kernel_substitutes opened_camera world0
                 640 480 V4L2_PIX_FMT_YUYV)
    = (true, opened_camera) /\
  fst (nativeSetFormat good_kernel (Some opened_camera) world0
                       640 480 V4L2_PIX_FMT_YUYV)
    = fst (nativeSetFormat kernel_substitutes (Some opened_camera) world0
                           640 480 V4L2_PIX_FMT_YUYV).
Proof. repeat split. Qed.

(** C8, amended.  Whenever the driver accepts a format, [setFormat] and
    [nativeSetFormat] return the success flag only; the object is left as
    it was, and the width, height and pixel format the driver accepted are
    written to the log, nowhere else. *)
Theorem setFormat_returns_flag_only (K : Kernel) (c : V4L2Camera) (w : World)
        (width height pixelFormat : Z) (got : pix_format) :
  ioctl_s_fmt K w (fd_ c) (requested_format width height pixelFormat)
    = Some got ->
  let w' := log (mk_log false "Format successfully set to %dx%d, fourcc=0x%08x"
                        [pix_width got; pix_height got; pix_pixelformat got])
                (tick w) in
  setFormat K c w width height pixelFormat = (true, c, w') /\
  nativeSetFormat K (Some c) w width height pixelFormat = (true, Some c, w').
Proof.
  intros Hfmt w'. unfold nativeSetFormat, setFormat.
  unfold requested_format in Hfmt. rewrite Hfmt. split; reflexivity.
Qed.

Lemma setFormat_returns_flag_only_witness :
  setFormat kernel_substitutes opened_camera world0 640 480 V4L2_PIX_FMT_YUYV
    = (true, opened_camera,
       log (mk_log false "Format successfully set to %dx%d, fourcc=0x%08x"
                   [320; 240; V4L2_PIX_FMT_MJPEG]) (tick world0)) /\
  nativeSetFormat kernel_substitutes (Some opened_camera) world0
                  640 480 V4L2_PIX_FMT_YUYV
    = (true, Some opened_camera,
       log (mk_log false "Format successfully set to %dx%d, fourcc=0x%08x"
                   [320; 240; V4L2_PIX_FMT_MJPEG]) (tick world0)).
Proof.
  apply (setFormat_returns_flag_only kernel_substitutes opened_camera world0
           640 480 V4L2_PIX_FMT_YUYV (mk_pix 320 240 V4L2_PIX_FMT_MJPEG 1)).
  reflexivity.
Defined.

(** ** Discovery on the USB backend *)

Lemma streaming_loop_found (conn : UVC.UsbDeviceConnection)
      (ifs : list UVC.UsbInterface) :
  forall i h h',
    UVC.streaming_loop conn ifs i h = (true, h') ->
    exists k u,
      nth_error ifs k = Some u /\ is_streaming_interface u = true /\
      UVC.claimInterface conn (i + k) = true /\
      (forall k' u', (k' < k)%nat -> nth_error ifs k' = Some u' ->
                     is_streaming_interface u' = true ->
                     UVC.claimInterface conn (i + k') = false) /\
      UVC.h_claimed h' = (i + k)%nat :: UVC.h_claimed h.
Proof.
  induction ifs as [|u rest IH]; intros i h h' H; cbn [UVC.streaming_loop] in H;
    [discriminate|].
  fold (is_streaming_interface u) in H.
  destruct (is_streaming_interface u) eqn:Es.
  - destruct (UVC.claimInterface conn i) eqn:Ec.
    + injection H as <-. exists 0%nat, u. rewrite Nat.add_0_r.
      repeat split; auto. intros k' u' Hk. lia.
    + apply IH in H. destruct H as (k & v & Hn & Hs & Hc & Hmin & Hcl).
      exists (S k), v. replace (i + S k)%nat with (S i + k)%nat by lia.
      repeat split; auto.
      intros [|k'] u' Hk Hn' Hs'.
      * now rewrite Nat.add_0_r.
      * replace (i + S k')%nat with (S i + k')%nat by lia.
        apply (Hmin k' u'); auto. lia.
  - apply IH in H. destruct H as (k & v & Hn & Hs & Hc & Hmin & Hcl).
    exists (S k), v. replace (i + S k)%nat with (S i + k)%nat by lia.
    repeat split; auto.
    intros [|k'] u' Hk Hn' Hs'.
    + simpl in Hn'. injection Hn' as <-. congruence.
    + replace (i + S k')%nat with (S i + k')%nat by lia.
      apply (Hmin k' u'); auto. lia.
Qed.

Lemma streaming_loop_not_found (conn : UVC.UsbDeviceConnection)
      (ifs : list UVC.UsbInterface) :
  forall i h h',
    UVC.streaming_loop conn ifs i h = (false, h') ->
    (forall k u, nth_error ifs k = Some u -> is_streaming_interface u = true ->
                 UVC.claimInterface conn (i + k) = false) /\
    UVC.h_claimed h' = UVC.h_claimed h.
Proof.
  induction ifs as [|u rest IH]; intros i h h' H; cbn [UVC.streaming_loop] in H.
  - injection H as <-. split; [|reflexivity].
    intros [|k] v Hn; discriminate.
  - fold (is_streaming_interface u) in H.
    destruct (is_streaming_interface u) eqn:Es.
    + destruct (UVC.claimInterface conn i) eqn:Ec; [discriminate|].
      apply IH in H. destruct H as (Hall & Hcl). split; [|exact Hcl].
      intros [|k] v Hn Hs.
      * now rewrite Nat.add_0_r.
      * replace (i + S k)%nat with (S i + k)%nat by lia. now apply (Hall k v).
    + apply IH in H. destruct H as (Hall & Hcl). split; [|exact Hcl].
      intros [|k] v Hn Hs.
      * simpl in Hn. injection Hn as <-. congruence.
      * replace (i + S k)%nat with (S i + k)%nat by lia. now apply (Hall k v).
Qed.

Lemma endpoint_loop_found (eps : list UVC.UsbEndpoint) :
  forall j r,
    UVC.endpoint_loop eps j = Some r ->
    exists k e, r = (j + k)%nat /\ nth_error eps k = Some e /\
                is_bulk_in e = true /\
                forall k' e', (k' < k)%nat -> nth_error eps k' = Some e' ->
                              is_bulk_in e' = false.
Proof.
  induction eps as [|e rest IH]; intros j r H; cbn [UVC.endpoint_loop] in H;
    [discriminate|].
  fold (is_bulk_in e) in H. destruct (is_bulk_in e) eqn:Eb.
  - injection H as <-. exists 0%nat, e.
    split; [lia|]. split; [reflexivity|]. split; [exact Eb|]. intros; lia.
  - apply IH in H. destruct H as (k & e0 & -> & Hn & Hb & Hmin).
    exists (S k), e0. split; [lia|]. split; [exact Hn|]. split; [exact Hb|].
    intros [|k'] e' Hk Hn'.
    + simpl in Hn'. now injection Hn' as <-.
    + apply (Hmin k' e'); auto. lia.
Qed.

Lemma endpoint_loop_not_found (eps : list UVC.UsbEndpoint) :
  forall j,
    UVC.endpoint_loop eps j = None ->
    forall k e, nth_error eps k = Some e -> is_bulk_in e = false.
Proof.
  induction eps as [|e rest IH]; intros j H k e0 Hn;
    cbn [UVC.endpoint_loop] in H.
  - destruct k; discriminate.
  - fold (is_bulk_in e) in H. destruct (is_bulk_in e) eqn:Eb; [discriminate|].
    destruct k as [|k]; simpl in Hn.
    + now injection Hn as <-.
    + eapply IH; eauto.
Qed.

Lemma interface_loop_found (ifs : list UVC.UsbInterface) :
  forall i a b,
    UVC.interface_loop ifs i = Some (a, b) ->
    exists k, a = (i + k)%nat /\ bulk_in_at ifs k b /\
              forall k' j', bulk_in_at ifs k' j' ->
                            (k < k')%nat \/ (k = k' /\ (b <= j')%nat).
Proof.
  induction ifs as [|u rest IH]; intros i a b H; cbn [UVC.interface_loop] in H;
    [discriminate|].
  destruct (UVC.endpoint_loop (UVC.endpoints u) 0) as [j|] eqn:Ee.
  - injection H as <- <-.
    apply endpoint_loop_found in Ee.
    destruct Ee as (k & e & -> & Hn & Hb & Hmin). simpl.
    exists 0%nat. split; [lia|]. split.
    + exists u, e. repeat split; auto.
    + intros [|k'] j' (u' & e' & Hu & He & Hb'); [|left; lia].
      right. split; [reflexivity|]. simpl in Hu. injection Hu as <-.
      destruct (Nat.le_gt_cases k j') as [Hle|Hgt]; [exact Hle|].
      rewrite (Hmin j' e' Hgt He) in Hb'. discriminate.
  - apply IH in H. destruct H as (k & -> & (u0 & e0 & Hu & He & Hb) & Hmin).
    exists (S k). split; [lia|]. split.
    + exists u0, e0. repeat split; auto.
    + intros [|k'] j' (u' & e' & Hu' & He' & Hb').
      * simpl in Hu'. injection Hu' as <-.
        rewrite (endpoint_loop_not_found _ _ Ee j' e' He') in Hb'. discriminate.
      * destruct (Hmin k' j') as [Hlt|[-> Hle]].
        -- exists u', e'. repeat split; auto.
        -- left; lia.
        -- right. split; [reflexivity|exact Hle].
Qed.

Lemma interface_loop_not_found (ifs : list UVC.UsbInterface) :
  forall i, UVC.interface_loop ifs i = None -> forall k j, ~ bulk_in_at ifs k j.
Proof.
  induction ifs as [|u rest IH]; intros i H k j (u' & e' & Hu & He & Hb);
    cbn [UVC.interface_loop] in H.
  - destruct k; discriminate.
  - destruct (UVC.endpoint_loop (UVC.endpoints u) 0) eqn:Ee; [discriminate|].
    destruct k as [|k]; simpl in Hu.
    + injection Hu as <-.
      rewrite (endpoint_loop_not_found _ _ Ee j e' He) in Hb. discriminate.
    + apply (IH (S i) H k j). exists u', e'. repeat split; auto.
Qed.

(** C9, as stated, fails.  On the composite device [open] claims
    interface 1, which has no bulk IN endpoint, and still succeeds with
    the endpoint of interface 0; and when the claim of the first streaming
    interface is refused, [open] goes on to the next one and succeeds. *)
Lemma open_takes_endpoint_of_other_interface :
  (exists c' h',
     UVC.open UVC.UVCCamera_new UVC.host0 willing_connection composite_device
       = (true, c', h') /\
     UVC.h_claimed h' = [1%nat] /\
     UVC.endpoint_loop (UVC.endpoints (nth 1 composite_device
                                           (UVC.mk_interface 0 0 []))) 0
       = None /\
     UVC.bulkEndpoint_ c' = Some (0%nat, 0%nat)) /\
  (exists c' h',
     UVC.open UVC.UVCCamera_new UVC.host0 refuses_interface_0
              two_streaming_interfaces
       = (true, c', h') /\
     is_streaming_interface (nth 0 two_streaming_interfaces
                                 (UVC.mk_interface 0 0 [])) = true /\
     UVC.claimInterface refuses_interface_0 0 = false /\
     UVC.h_claimed h' = [1%nat]).
Proof.
  split; eexists _, _; (split; [vm_compute; reflexivity|]); repeat split.
Qed.

(** C9, amended.  [open] claims the first streaming interface that the
    connection lets it claim, going past streaming interfaces whose claim
    is refused, and fails with the streaming-interface error when there is
    none.  It then takes the first bulk IN endpoint found over all the
    interfaces of the device in order, claimed or not, and fails with the
    bulk-endpoint error when no interface has one. *)
Theorem open_discovery (conn : UVC.UsbDeviceConnection) (dev : UVC.UsbDevice)
        (c : UVC.UVCCamera) (h : UVC.Host) :
  exists r c' h',
    UVC.open c h conn dev = (r, c', h') /\
    ((r = false /\
      hd_error (UVC.h_log h') = Some no_streaming_interface_error /\
      (forall k, ~ claimable conn dev k) /\
      UVC.h_claimed h' = UVC.h_claimed h /\
      UVC.bulkEndpoint_ c' = UVC.bulkEndpoint_ c)
     \/
     (r = false /\
      hd_error (UVC.h_log h') = Some no_bulk_endpoint_error /\
      (exists k, first_claimable conn dev k /\
                 UVC.h_claimed h' = k :: UVC.h_claimed h) /\
      (forall i j, ~ bulk_in_at dev i j) /\
      UVC.bulkEndpoint_ c' = UVC.bulkEndpoint_ c)
     \/
     (r = true /\
      (exists k, first_claimable conn dev k /\
                 UVC.h_claimed h' = k :: UVC.h_claimed h) /\
      (exists i j, first_bulk_in dev i j /\
                   UVC.bulkEndpoint_ c' = Some (i, j)))).
Proof.
  unfold UVC.open, UVC.findStreamingInterface. cbn [UVC.usbConnection_ UVC.usbDevice_].
  destruct (UVC.streaming_loop conn dev 0 _) as [[|] h2] eqn:Es.
  - apply streaming_loop_found in Es.
    destruct Es as (k & u & Hn & Hs & Hc & Hmin & Hcl). simpl in Hc, Hmin, Hcl.
    assert (Hfirst : first_claimable conn dev k).
    { split; [exists u; auto|].
      intros k' Hk (u' & Hn' & Hs' & Hc').
      rewrite (Hmin k' u' Hk Hn' Hs') in Hc'. discriminate. }
    unfold UVC.findBulkEndpoint. cbn [UVC.usbDevice_ negb].
    destruct (UVC.interface_loop dev 0) as [[a b]|] eqn:Ei.
    + apply interface_loop_found in Ei. destruct Ei as (k0 & -> & Hb & Hbmin).
      eexists _, _, _. split; [reflexivity|]. right. right.
      split; [reflexivity|]. split.
      * exists k. split; [exact Hfirst|]. simpl. exact Hcl.
      * exists k0, b. split; [split; assumption|reflexivity].
    + eexists _, _, _. split; [reflexivity|]. right. left.
      split; [reflexivity|]. split; [reflexivity|]. split.
      * exists k. split; [exact Hfirst|]. simpl. exact Hcl.
      * split; [|reflexivity]. eapply interface_loop_not_found; exact Ei.
  - apply streaming_loop_not_found in Es. destruct Es as (Hall & Hcl).
    simpl in Hall. eexists _, _, _. split; [reflexivity|]. left.
    split; [reflexivity|]. split; [reflexivity|]. split.
    + intros k (u & Hn & Hs & Hc). rewrite (Hall k u Hn Hs) in Hc. discriminate.
    + split; [|reflexivity]. simpl. exact Hcl.
Qed.

(** ** [releaseFrame] *)

(** C5, as stated, fails on the kernel backend.  After streaming was
    stopped no buffer is in flight and the driver owns none, yet
    [releaseFrame] hands buffer 0 to the driver; and on a new object, where
    nothing was ever dequeued, [releaseFrame] logs an error. *)
Lemma releaseFrame_without_frame_is_not_a_no_op :
  w_inflight (snd stopped_state) = [] /\
  w_queued (snd stopped_state) = [] /\
  w_queued (snd (releaseFrame good_kernel (fst stopped_state)
                              (snd stopped_state))) = [0] /\
  w_inflight world0 = [] /\
  w_log (snd (releaseFrame good_kernel V4L2Camera_new world0))
    = [requeue_error].
Proof. repeat split. Qed.

(** C5, amended.  On the USB backend [releaseFrame] changes nothing.  On
    the kernel backend it hands no result back and never changes the
    object, but it always issues [VIDIOC_QBUF] for [current_buffer_],
    whether or not a buffer is in flight: when the driver refuses, the
    mappings, queues and handles stay as they were and one error line is
    logged; when the driver accepts while no buffer is in flight, that
    buffer joins the queue of the driver and still no buffer is in
    flight. *)
Theorem releaseFrame_effect (K : Kernel) (c : V4L2Camera) (w : World)
        (uc : UVC.UVCCamera) (h : UVC.Host) :
  UVC.releaseFrame uc h = (uc, h) /\
  fst (releaseFrame K c w) = c /\
  (ioctl_qbuf K w (fd_ c) (current_buffer_ c) = false ->
   snd (releaseFrame K c w) = log requeue_error (tick w) /\
   same_device w (snd (releaseFrame K c w))) /\
  (ioctl_qbuf K w (fd_ c) (current_buffer_ c) = true ->
   w_inflight w = [] ->
   w_inflight (snd (releaseFrame K c w)) = [] /\
   w_queued (snd (releaseFrame K c w))
     = b_index (current_buffer_ c)
       :: removeZ (b_index (current_buffer_ c)) (w_queued w) /\
   w_log (snd (releaseFrame K c w)) = w_log w).
Proof.
  split; [reflexivity|]. unfold releaseFrame.
  destruct (ioctl_qbuf K w (fd_ c) (current_buffer_ c)).
  - split; [reflexivity|]. split; [discriminate|].
    intros _ Hfl. simpl. rewrite Hfl. repeat split.
  - split; [reflexivity|]. split; [|discriminate].
    intros _. split; [reflexivity|]. repeat split.
Qed.

Lemma releaseFrame_effect_witness :
  (snd (releaseFrame good_kernel V4L2Camera_new world0)
     = log requeue_error (tick world0) /\
   same_device world0 (snd (releaseFrame good_kernel V4L2Camera_new world0)))
  /\
  (w_inflight (snd (releaseFrame good_kernel (fst stopped_state)
                                 (snd stopped_state))) = [] /\
   w_queued (snd (releaseFrame good_kernel (fst stopped_state)
                               (snd stopped_state)))
     = b_index (current_buffer_ (fst stopped_state))
       :: removeZ (b_index (current_buffer_ (fst stopped_state)))
                  (w_queued (snd stopped_state)) /\
   w_log (snd (releaseFrame good_kernel (fst stopped_state)
                            (snd stopped_state)))
     = w_log (snd stopped_state)).
Proof.
  split.
  - destruct (releaseFrame_effect good_kernel V4L2Camera_new world0
                UVC.UVCCamera_new UVC.host0) as (_ & _ & H & _).
    apply H. reflexivity.
  - destruct (releaseFrame_effect good_kernel (fst stopped_state)
                (snd stopped_state) UVC.UVCCamera_new UVC.host0)
      as (_ & _ & _ & H).
    apply H; reflexivity.
Defined.

(** ** Frames in flight *)

Lemma removeZ_single (i : Z) : removeZ i [i] = [].
Proof. unfold removeZ. simpl. now rewrite Z.eqb_refl. Qed.

Lemma map_loop_queues (K : Kernel) (fuel : nat) :
  forall i c w r c' w',
    map_loop K fuel i c w = (r, c', w') ->
    w_queued w' = w_queued w /\ w_inflight w' = w_inflight w.
Proof.
  induction fuel as [|fuel IH]; intros i c w r c' w' H; cbn [map_loop] in H.
  - injection H as _ _ <-. split; reflexivity.
  - destruct (ioctl_querybuf K w (fd_ c) (Z.of_nat i)) as [[len off]|].
    + destruct (sys_mmap K (tick w) len (fd_ c) off).
      * apply IH in H. exact H.
      * match type of H with
        | (let '(_, _) := freeBuffers ?c2 ?w2 in _) = _ =>
            pose proof (freeBuffers_frame c2 w2) as Hfr;
            destruct (freeBuffers c2 w2) as [cf wf]
        end.
        injection H as _ _ <-. destruct Hfr as (Hq & Hf & _). simpl in *.
        split; assumption.
    + match type of H with
      | (let '(_, _) := freeBuffers ?c2 ?w2 in _) = _ =>
          pose proof (freeBuffers_frame c2 w2) as Hfr;
          destruct (freeBuffers c2 w2) as [cf wf]
      end.
      injection H as _ _ <-. destruct Hfr as (Hq & Hf & _). simpl in *.
      split; assumption.
Qed.

Lemma queue_loop_inflight (K : Kernel) (fuel : nat) :
  forall i c w r w',
    queue_loop K fuel i c w = (r, w') -> w_inflight w = [] -> w_inflight w' = [].
Proof.
  induction fuel as [|fuel IH]; intros i c w r w' H Hfl; cbn [queue_loop] in H.
  - now injection H as _ <-.
  - destruct (ioctl_qbuf K w (fd_ c) (capture_buffer (Z.of_nat i))).
    + apply IH in H; [exact H|]. simpl. now rewrite Hfl.
    + now injection H as _ <-.
Qed.

(** When [startStreaming] succeeds no buffer is in flight. *)
Lemma startStreaming_inflight (K : Kernel) (c : V4L2Camera) (w : World)
      (c1 : V4L2Camera) (w1 : World) :
  startStreaming K c w = Some (true, c1, w1) -> w_inflight w1 = [].
Proof.
  unfold startStreaming, initBuffers. intro H.
  destruct (ioctl_reqbufs K w (fd_ c) 4) as [count|]; [|discriminate].
  destruct (count <? 2); [discriminate|].
  destruct (INT_MAX <? count); [discriminate|].
  destruct (map_loop K _ 0 _ _) as [[[|] cm] wm] eqn:Em; [|discriminate].
  apply map_loop_queues in Em. destruct Em as [_ Hfl]. simpl in Hfl.
  destruct (queue_loop K _ 0 cm wm) as [[|] wq] eqn:Eq; [|discriminate].
  apply queue_loop_inflight in Eq; [|exact Hfl].
  destruct (ioctl_streamon K wq (fd_ cm)); [|discriminate].
  injection H as _ <-. exact Eq.
Qed.

(** After [getFrame], from a state with nothing in flight: nothing is in
    flight, or the one buffer named by [current_buffer_]. *)
Lemma getFrame_inflight (K : Kernel) (c : V4L2Camera) (w : World)
      (r : option (ptr * Z)) (c' : V4L2Camera) (w' : World) :
  getFrame K c w = (r, c', w') -> w_inflight w = [] ->
  (r = None /\ w_inflight w' = []) \/
  (r <> None /\ w_inflight w' = [b_index (current_buffer_ c')]).
Proof.
  unfold getFrame. intros H Hfl.
  destruct (negb (streaming_ c)).
  - injection H as <- <- <-. left. split; [reflexivity|exact Hfl].
  - destruct (ioctl_dqbuf K w (fd_ c)) as [i used| |].
    + injection H as <- <- <-. right. split; [discriminate|].
      simpl. now rewrite Hfl.
    + injection H as <- <- <-. left. split; [reflexivity|exact Hfl].
    + injection H as <- <- <-. left. split; [reflexivity|exact Hfl].
Qed.

(** After [releaseFrame]: nothing is in flight, when before it nothing was,
    or only the buffer named by [current_buffer_] and the driver takes it
    back. *)
Lemma releaseFrame_inflight (K : Kernel) (c : V4L2Camera) (w : World) :
  (w_inflight w = [] \/ w_inflight w = [b_index (current_buffer_ c)]) ->
  (w_inflight w <> [] ->
   ioctl_qbuf K w (fd_ c) (current_buffer_ c) = true) ->
  w_inflight (snd (releaseFrame K c w)) = [].
Proof.
  intros Hfl Hacc. unfold releaseFrame.
  destruct (ioctl_qbuf K w (fd_ c) (current_buffer_ c)) eqn:Eq; simpl.
  - destruct Hfl as [->| ->]; [reflexivity|apply removeZ_single].
  - destruct Hfl as [Hfl|Hfl]; [exact Hfl|].
    rewrite Hfl in Hacc. discriminate Hacc. discriminate.
Qed.

Lemma released_run (K : Kernel) (ops : list Op) :
  forall pending c w,
    releases_each_frame K pending ops (c, w) ->
    releases_accepted K ops (c, w) ->
    (if pending
     then w_inflight w = [] \/ w_inflight w = [b_index (current_buffer_ c)]
     else w_inflight w = []) ->
    List.length (states K ops (c, w)) = List.length ops /\
    Forall at_most_one_in_flight (states K ops (c, w)).
Proof.
  induction ops as [|op rest IH]; intros pending c w Hd Hacc Hfl.
  - split; [reflexivity|constructor].
  - destruct op; cbn [releases_each_frame fst snd] in Hd; try contradiction.
    + (* getFrame *)
      destruct Hd as [-> Hd].
      destruct Hacc as [_ Hacc]. cbn [states step] in *.
      destruct (getFrame K c w) as [[r c'] w'] eqn:Eg. cbn [fst snd] in Hd.
      pose proof (getFrame_inflight K c w r c' w' Eg Hfl) as Hg.
      destruct (IH _ c' w' Hd Hacc) as [Hlen Hall].
      * destruct Hg as [[-> H]|[Hr H]]; [exact H|].
        destruct r; [now right|contradiction].
      * split; [simpl; now rewrite Hlen|].
        constructor; [|exact Hall]. unfold at_most_one_in_flight. simpl.
        destruct Hg as [[_ ->]|[_ ->]]; simpl; lia.
    + (* releaseFrame *)
      destruct Hacc as [Hnow Hacc]. cbn [states step] in *.
      assert (Hnone : w_inflight (snd (releaseFrame K c w)) = []).
      { apply releaseFrame_inflight.
        - destruct pending; [exact Hfl|now left].
        - intro Hne. now apply Hnow. }
      destruct (releaseFrame K c w) as [c' w'] eqn:Er. simpl in Hnone.
      destruct (IH false c' w' Hd Hacc Hnone) as [Hlen Hall].
      split; [simpl; now rewrite Hlen|].
      constructor; [|exact Hall]. unfold at_most_one_in_flight. simpl.
      rewrite Hnone. simpl. lia.
Qed.

(** A sequence in which every [getFrame] is directly followed by a
    [releaseFrame] gives back each frame before the next is asked for. *)
Lemma disciplined_releases_each_frame (K : Kernel) (ops : list Op) :
  forall pending pending' s,
    disciplined pending ops = true ->
    (pending' = true -> pending = true) ->
    releases_each_frame K pending' ops s.
Proof.
  induction ops as [|op rest IH]; intros pending pending' s Hd Himp;
    [exact I|].
  destruct op; simpl in Hd; try discriminate; cbn [releases_each_frame].
  - apply andb_true_iff in Hd. destruct Hd as [Hp Hd].
    apply negb_true_iff in Hp. split.
    + destruct pending'; [|reflexivity]. rewrite Himp in Hp by reflexivity.
      discriminate.
    + eapply IH; [exact Hd|reflexivity].
  - eapply IH; [exact Hd|]. discriminate.
Qed.

(** C4, as stated, fails.  The caller releases the first frame before it
    asks for the second, but the driver refuses the requeue, which
    [releaseFrame] only logs: after the second [getFrame] buffers 0 and 1
    are both in flight. *)
Lemma two_frames_in_flight :
  disciplined false get_release_get = true /\
  w_inflight
    (snd (after kernel_drops_requeue
                ([OpOpen "/dev/video0"; OpSetFormat 640 480 V4L2_PIX_FMT_YUYV;
                  OpStartStreaming] ++ get_release_get)))
    = [1; 0] /\
  releases_each_frame kernel_drops_requeue false get_release_get
                      (fst drops_requeue_streaming,
                       snd drops_requeue_streaming).
Proof.
  split; [reflexivity|]. split; [reflexivity|].
  apply (disciplined_releases_each_frame _ _ false); [reflexivity|auto].
Qed.

(** C4, amended.  After a [setFormat] and a [startStreaming] that
    succeed, along every sequence of [getFrame] and [releaseFrame] calls in
    which the caller gives back each frame before it asks for another
    (every [getFrame] that returned a frame is followed by a
    [releaseFrame] before the next [getFrame]; a [getFrame] that returned
    no frame may be repeated), every call returns and at most one buffer
    is in flight after each call, provided the driver accepts the requeue
    of each [releaseFrame] issued while a buffer is in flight. *)
Theorem single_frame_in_flight (K : Kernel) (c : V4L2Camera) (w : World)
        (width height pixelFormat : Z) (c0 c1 : V4L2Camera) (w0 w1 : World)
        (ops : list Op) :
  setFormat K c w width height pixelFormat = (true, c0, w0) ->
  startStreaming K c0 w0 = Some (true, c1, w1) ->
  releases_each_frame K false ops (c1, w1) ->
  releases_accepted K ops (c1, w1) ->
  at_most_one_in_flight (c1, w1) /\
  List.length (states K ops (c1, w1)) = List.length ops /\
  Forall at_most_one_in_flight (states K ops (c1, w1)).
Proof.
  intros _ Hstart Hd Hacc.
  pose proof (startStreaming_inflight K c0 w0 c1 w1 Hstart) as Hfl.
  split.
  - unfold at_most_one_in_flight. simpl. rewrite Hfl. simpl. lia.
  - apply (released_run K ops false c1 w1 Hd Hacc Hfl).
Qed.

Lemma single_frame_in_flight_witness :
  at_most_one_in_flight (fst streaming_state, snd streaming_state) /\
  List.length (states kernel_one_frame polling_rounds
                      (fst streaming_state, snd streaming_state))
    = List.length polling_rounds /\
  Forall at_most_one_in_flight
         (states kernel_one_frame polling_rounds
                 (fst streaming_state, snd streaming_state)).
Proof.
  apply (single_frame_in_flight kernel_one_frame
           (fst opened_state) (snd opened_state)
           640 480 V4L2_PIX_FMT_YUYV
           (fst format_state) (fst streaming_state)
           (snd format_state) (snd streaming_state) polling_rounds).
  - vm_compute; reflexivity.
  - vm_compute; reflexivity.
  - vm_compute. repeat split.
  - vm_compute. repeat split; intros;
      first [ reflexivity
            | discriminate
            | match goal with
              | H : _ = _ -> False |- _ => exfalso; apply H; reflexivity
              end ].
Defined.

(** ** [nativeGetFrame] *)

(** C10, as stated, fails.  [nativeGetFrame] obtains a frame, copies its
    eight bytes and calls [releaseFrame], but the driver refuses the
    requeue: the call completes with buffer 0 still in flight. *)
Lemma nativeGetFrame_leaves_frame_in_flight :
  w_inflight (snd drops_requeue_streaming) = [] /\
  fst (fst (nativeGetFrame kernel_drops_requeue
                           (Some (fst drops_requeue_streaming))
                           (snd drops_requeue_streaming)))
    = Some [1; 2; 3; 4; 5; 6; 7; 8] /\
  w_inflight (snd (nativeGetFrame kernel_drops_requeue
                                  (Some (fst drops_requeue_streaming))
                                  (snd drops_requeue_streaming)))
    = [0].
Proof. repeat split. Qed.

(** C10, amended.  Every call of [nativeGetFrame] in which [getFrame]
    obtains a frame hands back, when the managed array can be allocated, a
    new array holding a copy of the first [buffer_size] bytes of the mapped
    buffer as they are at that moment (a value of its own, not the mapped
    region), and in every case calls [releaseFrame] once before it returns:
    one [VIDIOC_QBUF] is issued for the dequeued buffer and the object is
    left as [getFrame] left it.  If no buffer was in flight before the call
    and the driver accepts that requeue, no buffer is in flight after the
    call. *)
Theorem nativeGetFrame_copies_then_releases (K : Kernel) (c : V4L2Camera)
        (w : World) (buffer : ptr) (buffer_size : Z) (c1 : V4L2Camera)
        (w1 : World) :
  getFrame K c w = (Some (buffer, buffer_size), c1, w1) ->
  nativeGetFrame K (Some c) w
    = (if jni_new_byte_array K w1 buffer_size
       then Some (firstn (Z.to_nat buffer_size) (region_bytes K w1 buffer))
       else None,
       Some c1, snd (releaseFrame K c1 w1)) /\
  w_tick (snd (releaseFrame K c1 w1)) = S (w_tick w1) /\
  In (b_index (current_buffer_ c1)) (w_inflight w1) /\
  (w_inflight w = [] ->
   ioctl_qbuf K w1 (fd_ c1) (current_buffer_ c1) = true ->
   w_inflight (snd (nativeGetFrame K (Some c) w)) = []).
Proof.
  intros Hget.
  assert (Hnative : nativeGetFrame K (Some c) w
    = (if jni_new_byte_array K w1 buffer_size
       then Some (firstn (Z.to_nat buffer_size) (region_bytes K w1 buffer))
       else None,
       Some c1, snd (releaseFrame K c1 w1))).
  { unfold nativeGetFrame. rewrite Hget. unfold releaseFrame.
    destruct (ioctl_qbuf K w1 (fd_ c1) (current_buffer_ c1)); reflexivity. }
  split; [exact Hnative|]. split; [|split].
  - unfold releaseFrame.
    destruct (ioctl_qbuf K w1 (fd_ c1) (current_buffer_ c1)); reflexivity.
  - unfold getFrame in Hget. destruct (negb (streaming_ c)); [discriminate|].
    destruct (ioctl_dqbuf K w (fd_ c)) as [i used| |]; try discriminate.
    injection Hget as _ _ <- <-. simpl. now left.
  - intros Hfl Hacc. rewrite Hnative. cbn [snd].
    apply releaseFrame_inflight; [|intros _; exact Hacc].
    destruct (getFrame_inflight K c w _ c1 w1 Hget Hfl) as [[Hn _]|[_ H]];
      [discriminate|now right].
Qed.

Lemma nativeGetFrame_copies_then_releases_witness :
  fst (fst (nativeGetFrame good_kernel (Some (fst streaming_state))
                           (snd streaming_state)))
    = Some [1; 2; 3; 4; 5; 6; 7; 8] /\
  w_inflight (snd (nativeGetFrame good_kernel (Some (fst streaming_state))
                                  (snd streaming_state))) = [].
Proof.
  destruct (nativeGetFrame_copies_then_releases good_kernel
              (fst streaming_state) (snd streaming_state) (Addr 1) 8
              (snd (fst first_frame)) (snd first_frame))
    as (H1 & _ & _ & H2).
  - vm_compute; reflexivity.
  - split.
    + rewrite H1. vm_compute; reflexivity.
    + apply H2; vm_compute; reflexivity.
Defined.

(** ** Ownership of the descriptor *)

Lemma same_handles_refl (w : World) : same_handles w w.
Proof. repeat split. Qed.

Lemma same_handles_trans (w1 w2 w3 : World) :
  same_handles w1 w2 -> same_handles w2 w3 -> same_handles w1 w3.
Proof.
  unfold same_handles. intros (?&?&?) (?&?&?). repeat split; congruence.
Qed.

Lemma freeBuffers_handles (c : V4L2Camera) (w : World) :
  same_handles w (snd (freeBuffers c w)).
Proof.
  destruct (freeBuffers_frame c w) as (_&_&Ho&_&Ha&Hc&_). repeat split; auto.
Qed.

Lemma map_loop_handles (K : Kernel) (fuel : nat) :
  forall i c w r c' w',
    map_loop K fuel i c w = (r, c', w') -> same_handles w w'.
Proof.
  induction fuel as [|fuel IH]; intros i c w r c' w' H; cbn [map_loop] in H.
  - injection H as _ _ <-. apply same_handles_refl.
  - destruct (ioctl_querybuf K w (fd_ c) (Z.of_nat i)) as [[len off]|].
    + destruct (sys_mmap K (tick w) len (fd_ c) off).
      * apply IH in H. eapply same_handles_trans; [|exact H]. repeat split.
      * match type of H with
        | (let '(_, _) := freeBuffers ?c2 ?w2 in _) = _ =>
            pose proof (freeBuffers_handles c2 w2) as Hfr;
            destruct (freeBuffers c2 w2) as [cf wf]
        end.
        injection H as _ _ <-. exact Hfr.
    + match type of H with
      | (let '(_, _) := freeBuffers ?c2 ?w2 in _) = _ =>
          pose proof (freeBuffers_handles c2 w2) as Hfr;
          destruct (freeBuffers c2 w2) as [cf wf]
      end.
      injection H as _ _ <-. exact Hfr.
Qed.

Lemma queue_loop_handles (K : Kernel) (fuel : nat) :
  forall i c w r w', queue_loop K fuel i c w = (r, w') -> same_handles w w'.
Proof.
  induction fuel as [|fuel IH]; intros i c w r w' H; cbn [queue_loop] in H.
  - injection H as _ <-. apply same_handles_refl.
  - destruct (ioctl_qbuf K w (fd_ c) (capture_buffer (Z.of_nat i))).
    + apply IH in H. eapply same_handles_trans; [|exact H]. repeat split.
    + injection H as _ <-. repeat split.
Qed.

Lemma startStreaming_handles (K : Kernel) (c : V4L2Camera) (w : World)
      (r : bool) (c' : V4L2Camera) (w' : World) :
  startStreaming K c w = Some (r, c', w') ->
  fd_ c' = fd_ c /\ same_handles w w'.
Proof.
  unfold startStreaming, initBuffers. intro H.
  destruct (ioctl_reqbufs K w (fd_ c) 4) as [count|].
  - destruct (count <? 2).
    + injection H as _ <- <-. split; [reflexivity|repeat split].
    + destruct (INT_MAX <? count); [discriminate|].
      destruct (map_loop K _ 0 _ _) as [[[|] cm] wm] eqn:Em.
      * pose proof (map_loop_fd _ _ _ _ _ _ _ _ Em) as Hfd.
        pose proof (map_loop_handles _ _ _ _ _ _ _ _ Em) as Hh.
        simpl in Hfd.
        destruct (queue_loop K _ 0 cm wm) as [[|] wq] eqn:Eq.
        -- pose proof (queue_loop_handles _ _ _ _ _ _ _ Eq) as Hq.
           destruct (ioctl_streamon K wq (fd_ cm));
             injection H as _ <- <-; (split; [exact Hfd|]);
             (eapply same_handles_trans; [exact Hh|]);
             (eapply same_handles_trans; [exact Hq|]); repeat split.
        -- pose proof (queue_loop_handles _ _ _ _ _ _ _ Eq) as Hq.
           injection H as _ <- <-. split; [exact Hfd|].
           eapply same_handles_trans; [exact Hh|exact Hq].
      * pose proof (map_loop_fd _ _ _ _ _ _ _ _ Em) as Hfd.
        pose proof (map_loop_handles _ _ _ _ _ _ _ _ Em) as Hh.
        injection H as _ <- <-. split; [exact Hfd|exact Hh].
  - injection H as _ <- <-. split; [reflexivity|repeat split].
Qed.

Lemma balanced_frame (c c' : V4L2Camera) (w w' : World) :
  fd_ c' = fd_ c -> same_handles w w' -> balanced c w -> balanced c' w'.
Proof.
  unfold balanced, held_handle. intros -> (-> & -> & ->) H. exact H.
Qed.

Lemma queryCapabilities_handles (K : Kernel) (c : V4L2Camera) (w : World) :
  same_handles w (snd (queryCapabilities K c w)).
Proof.
  unfold queryCapabilities.
  destruct (ioctl_querycap K w (fd_ c)) as [caps|]; [|repeat split].
  destruct (Z.land caps V4L2_CAP_VIDEO_CAPTURE =? 0); [repeat split|].
  destruct (Z.land caps V4L2_CAP_STREAMING =? 0); repeat split.
Qed.

Lemma close_balanced (K : Kernel) (c : V4L2Camera) (w : World) :
  balanced c w ->
  balanced (fst (close K c w)) (snd (close K c w)) /\
  fd_ (fst (close K c w)) < 0.
Proof.
  intro Hb. unfold close.
  assert (Hstop : exists c1 w1,
             (if streaming_ c
              then let '(_, c1, w1) := stopStreaming K c w in (c1, w1)
              else (c, w)) = (c1, w1) /\
             fd_ c1 = fd_ c /\ same_handles w w1).
  { destruct (streaming_ c) eqn:Es.
    - unfold stopStreaming. rewrite Es. simpl.
      destruct (ioctl_streamoff K w (fd_ c)); eexists _, _;
        (split; [reflexivity|]); split; try reflexivity; repeat split.
    - eexists _, _. split; [reflexivity|]. split; [reflexivity|repeat split]. }
  destruct Hstop as (c1 & w1 & -> & Hfd & Hh).
  pose proof (freeBuffers_handles c1 w1) as Hfree.
  pose proof (freeBuffers_camera c1 w1) as Hcam.
  destruct (freeBuffers c1 w1) as [c2 w2]. simpl in Hfree, Hcam. subst c2.
  assert (Hb2 : balanced (set_pool c1 None None 0) w2).
  { eapply balanced_frame; [|eapply same_handles_trans; [exact Hh|exact Hfree]
                            |exact Hb]. simpl. exact Hfd. }
  cbn [fd_ set_pool].
  destruct (0 <=? fd_ c1) eqn:Efd; cbn [fst snd].
  - split; [|simpl; lia].
    unfold balanced, held_handle in *. cbn [fd_ set_pool set_fd] in *.
    rewrite Efd in Hb2. simpl. simpl in Hb2. exact Hb2.
  - split; [exact Hb2|]. simpl. apply Z.leb_gt in Efd. exact Efd.
Qed.

Lemma held_handle_closed (c : V4L2Camera) : fd_ c < 0 -> held_handle c = [].
Proof.
  intro H. unfold held_handle.
  replace (0 <=? fd_ c) with false; [reflexivity|].
  symmetry. apply Z.leb_gt. exact H.
Qed.

Lemma open_balanced (K : Kernel) (c : V4L2Camera) (w : World) (path : string)
      (r : bool) (c' : V4L2Camera) (w' : World) :
  fd_ c < 0 -> balanced c w -> open K c w path = (r, c', w') -> balanced c' w'.
Proof.
  intros Hclosed Hb Hopen. unfold open in Hopen.
  unfold balanced in Hb. rewrite (held_handle_closed c Hclosed) in Hb.
  simpl in Hb.
  destruct (sys_open K w path <? 0) eqn:Efd.
  - injection Hopen as _ <- <-. unfold balanced.
    rewrite held_handle_closed by (simpl; now apply Z.ltb_lt). exact Hb.
  - match type of Hopen with
    | (let '(_, _) := queryCapabilities K ?c1 ?w2 in _) = _ =>
        pose proof (queryCapabilities_handles K c1 w2) as Hq;
        destruct (queryCapabilities K c1 w2) as [ok w3]
    end.
    destruct Hq as (Ho & Ha & Hc). simpl in Ho, Ha, Hc.
    apply Z.ltb_ge in Efd.
    destruct ok; injection Hopen as _ <- <-; unfold balanced, held_handle.
    + cbn [fd_ set_fd].
      replace (0 <=? sys_open K w path) with true
        by (symmetry; now apply Z.leb_le).
      rewrite Ho, Ha, Hc. simpl. now apply perm_skip.
    + cbn [fd_ set_fd]. simpl. rewrite Ho, Ha, Hc. simpl. now apply perm_skip.
Qed.

Lemma openByFd_balanced (K : Kernel) (c : V4L2Camera) (w : World) (fd : Z)
      (r : bool) (c' : V4L2Camera) (w' : World) :
  fd_ c < 0 -> balanced c w -> openByFd K c w fd = (r, c', w') ->
  balanced c' w'.
Proof.
  intros Hclosed Hb Hopen. unfold openByFd in Hopen.
  destruct (fd <? 0) eqn:Efd.
  - injection Hopen as _ <- <-. exact Hb.
  - unfold balanced in Hb. rewrite (held_handle_closed c Hclosed) in Hb.
    simpl in Hb.
    match type of Hopen with
    | (let '(_, _) := queryCapabilities K ?c1 ?w2 in _) = _ =>
        pose proof (queryCapabilities_handles K c1 w2) as Hq;
        destruct (queryCapabilities K c1 w2) as [ok w3]
    end.
    destruct Hq as (Ho & Ha & Hc). simpl in Ho, Ha, Hc.
    apply Z.ltb_ge in Efd.
    destruct ok; injection Hopen as _ <- <-; unfold balanced, held_handle.
    + cbn [fd_ set_fd].
      replace (0 <=? fd) with true by (symmetry; now apply Z.leb_le).
      simpl. rewrite Ho, Ha, Hc.
      apply Permutation_sym, Permutation_cons_app, Permutation_sym. exact Hb.
    + cbn [fd_ set_fd]. simpl. rewrite Ho, Ha, Hc. exact Hb.
Qed.

Lemma step_balanced (K : Kernel) (op : Op) (c : V4L2Camera) (w : World)
      (c' : V4L2Camera) (w' : World) :
  (is_open_op op = true -> fd_ c < 0) -> balanced c w ->
  step K op (c, w) = Some (c', w') -> balanced c' w'.
Proof.
  intros Hguard Hb Hstep. destruct op; cbn [step] in Hstep.
  - destruct (open K c w device_path) as [[r c1] w1] eqn:E.
    injection Hstep as <- <-.
    eapply open_balanced; [apply Hguard; reflexivity|exact Hb|exact E].
  - destruct (openByFd K c w fd) as [[r c1] w1] eqn:E.
    injection Hstep as <- <-.
    eapply openByFd_balanced; [apply Hguard; reflexivity|exact Hb|exact E].
  - unfold setFormat in Hstep.
    destruct (ioctl_s_fmt K w (fd_ c) _); injection Hstep as <- <-;
      (eapply balanced_frame; [| |exact Hb]); try reflexivity; repeat split.
  - destruct (startStreaming K c w) as [[[r c1] w1]|] eqn:E; [|discriminate].
    injection Hstep as <- <-. apply startStreaming_handles in E.
    destruct E as [Hfd Hh]. eapply balanced_frame; eauto.
  - unfold stopStreaming in Hstep.
    destruct (negb (streaming_ c)); [|destruct (ioctl_streamoff K w (fd_ c))];
      injection Hstep as <- <-;
      (eapply balanced_frame; [| |exact Hb]); try reflexivity; repeat split.
  - unfold getFrame in Hstep.
    destruct (negb (streaming_ c));
      [|destruct (ioctl_dqbuf K w (fd_ c)) as [i used| |]];
      injection Hstep as <- <-;
      (eapply balanced_frame; [| |exact Hb]); try reflexivity; repeat split.
  - unfold releaseFrame in Hstep.
    destruct (ioctl_qbuf K w (fd_ c) (current_buffer_ c));
      injection Hstep as <- <-;
      (eapply balanced_frame; [| |exact Hb]); try reflexivity; repeat split.
  - injection Hstep as Hclose.
    pose proof (close_balanced K c w Hb) as [H _]. rewrite Hclose in H. exact H.
Qed.

Lemma run_balanced (K : Kernel) (ops : list Op) :
  forall s c' w',
    opens_when_closed K ops s -> balanced (fst s) (snd s) ->
    run K ops s = Some (c', w') -> balanced c' w'.
Proof.
  induction ops as [|op rest IH]; intros [c w] c' w' Hg Hb Hrun;
    cbn [run] in Hrun.
  - injection Hrun as <- <-. exact Hb.
  - cbn [opens_when_closed] in Hg. destruct Hg as [Hnow Hrest].
    destruct (step K op (c, w)) as [[c1 w1]|] eqn:Es; [|discriminate].
    apply (IH (c1, w1)); [exact Hrest| |exact Hrun].
    eapply step_balanced; [exact Hnow|exact Hb|exact Es].
Qed.

Lemma run_app (K : Kernel) (ops1 ops2 : list Op) :
  forall s, run K (ops1 ++ ops2) s =
            match run K ops1 s with
            | Some s' => run K ops2 s'
            | None => None
            end.
Proof.
  induction ops1 as [|op rest IH]; intro s; simpl; [reflexivity|].
  destruct (step K op s); [apply IH|reflexivity].
Qed.

(** C6, as stated, fails.  Descriptor 5 is transferred in through
    [openByFd], the capability query fails, and the object forgets the
    descriptor without closing it; [close] does not release it either. *)
Lemma transferred_handle_never_released :
  exists c w,
    run kernel_no_capabilities [OpOpenByFd 5; OpClose] (V4L2Camera_new, world0)
      = Some (c, w) /\
    fd_ c = -1 /\
    w_offered w = [5] /\
    count_occ Z.eq_dec (w_closed w) 5 = 0%nat.
Proof.
  eexists _, _. split; [vm_compute; reflexivity|]. repeat split.
Qed.

(** C6, amended.  Along every sequence of calls on a new object in which
    [open] and [openByFd] are only called while the object holds no
    descriptor, the descriptors the object acquired (returned by [::open],
    or passed to an [openByFd] whose capability query succeeded) are, with
    multiplicity, the one it holds together with those it has closed; so
    once the sequence ends with [close] the object holds none and each
    acquired descriptor has been closed exactly as often as it was
    acquired.  A descriptor passed to an [openByFd] that fails is not
    acquired and is not closed by the object. *)
Theorem acquired_handles_released_once (K : Kernel) (ops : list Op)
        (c : V4L2Camera) (w : World) :
  opens_when_closed K ops (V4L2Camera_new, world0) ->
  run K ops (V4L2Camera_new, world0) = Some (c, w) ->
  balanced c w /\
  (forall ops', ops = ops' ++ [OpClose] ->
     fd_ c < 0 /\
     forall fd, count_occ Z.eq_dec (w_closed w) fd
                = count_occ Z.eq_dec (w_opened w ++ w_adopted w) fd).
Proof.
  intros Hg Hrun.
  assert (Hb : balanced c w).
  { eapply run_balanced; [exact Hg| |exact Hrun].
    unfold balanced. simpl. constructor. }
  split; [exact Hb|].
  intros ops' ->. rewrite run_app in Hrun.
  destruct (run K ops' (V4L2Camera_new, world0)) as [[c1 w1]|]; [|discriminate].
  cbn [run step] in Hrun. injection Hrun as Hclose.
  assert (Hfd : fd_ c < 0).
  { assert (Hc : c = fst (close K c1 w1)) by now rewrite Hclose.
    rewrite Hc. unfold close.
    destruct (if streaming_ c1
              then let '(_, c2, w2) := stopStreaming K c1 w1 in (c2, w2)
              else (c1, w1)) as [c2 w2].
    pose proof (freeBuffers_camera c2 w2) as Hcam.
    destruct (freeBuffers c2 w2) as [c3 w3]. simpl in Hcam. subst c3.
    cbn [fd_ set_pool].
    destruct (0 <=? fd_ c2) eqn:E; simpl; [lia|now apply Z.leb_gt]. }
  split; [exact Hfd|]. intro fd.
  unfold balanced in Hb. rewrite (held_handle_closed c Hfd) in Hb.
  simpl in Hb. symmetry.
  revert fd. apply (Permutation_count_occ Z.eq_dec). exact Hb.
Qed.

Lemma acquired_handles_released_once_witness :
  balanced (fst (after good_kernel open_close_twice))
           (snd (after good_kernel open_close_twice)) /\
  (forall ops', open_close_twice = ops' ++ [OpClose] ->
     fd_ (fst (after good_kernel open_close_twice)) < 0 /\
     forall fd,
       count_occ Z.eq_dec (w_closed (snd (after good_kernel open_close_twice)))
                 fd
       = count_occ Z.eq_dec
                   (w_opened (snd (after good_kernel open_close_twice))
                    ++ w_adopted (snd (after good_kernel open_close_twice)))
                   fd).
Proof.
  apply (acquired_handles_released_once good_kernel open_close_twice).
  - vm_compute. repeat split; intros; first [reflexivity | discriminate].
  - vm_compute; reflexivity.
Defined.


(** * Further properties of the kernel backend *)

(** ** Opening *)

Lemma land_pow2_zero (a n : Z) :
  0 <= n -> (Z.land a (2 ^ n) =? 0) = negb (Z.testbit a n).
Proof.
  intro Hn. destruct (Z.testbit a n) eqn:Hb; simpl.
  - apply Z.eqb_neq. intro H0.
    assert (Hc : Z.testbit (Z.land a (2 ^ n)) n = true).
    { rewrite Z.land_spec, Hb, Z.pow2_bits_true by exact Hn. reflexivity. }
    rewrite H0, Z.bits_0 in Hc. discriminate.
  - apply Z.eqb_eq. apply Z.bits_inj'. intros m Hm.
    rewrite Z.land_spec, Z.bits_0, Z.pow2_bits_eqb by exact Hn.
    destruct (Z.eqb_spec n m) as [->|_].
    + rewrite Hb. reflexivity.
    + apply andb_false_r.
Qed.

Lemma queryCapabilities_bits (K : Kernel) (c : V4L2Camera)
        (w : World) :
  (fst (queryCapabilities K c w) = true <->
   exists caps, ioctl_querycap K w (fd_ c) = Some caps /\
                Z.testbit caps 0 = true /\ Z.testbit caps 26 = true) /\
  w_tick (snd (queryCapabilities K c w)) = S (w_tick w) /\
  same_device w (snd (queryCapabilities K c w)).
Proof.
  unfold queryCapabilities.
  change V4L2_CAP_VIDEO_CAPTURE with (2 ^ 0).
  change V4L2_CAP_STREAMING with (2 ^ 26).
  destruct (ioctl_querycap K w (fd_ c)) as [caps|].
  - rewrite !land_pow2_zero by lia.
    destruct (Z.testbit caps 0) eqn:E0; destruct (Z.testbit caps 26) eqn:E26;
      cbn [negb fst snd];
      (split; [|split; [reflexivity|repeat split]]).
    + split; [intros _; exists caps; auto|reflexivity].
    + split; [discriminate|]. intros (caps' & [= <-] & _ & H). congruence.
    + split; [discriminate|]. intros (caps' & [= <-] & H & _). congruence.
    + split; [discriminate|]. intros (caps' & [= <-] & H & _). congruence.
  - simpl. split; [|split; [reflexivity|repeat split]].
    split; [discriminate|]. intros (caps' & H & _). discriminate.
Qed.

(** [queryCapabilities] answers [true] exactly when [VIDIOC_QUERYCAP]
    succeeds and the capability word has bit 0 (video capture) and bit 26
    (streaming) set; the object is not touched and one system call is
    issued whatever the answer. *)
Theorem queryCapabilities_needs_both_bits (K : Kernel) (c : V4L2Camera)
        (w : World) :
  (fst (queryCapabilities K c w) = true <->
   exists caps, ioctl_querycap K w (fd_ c) = Some caps /\
                Z.testbit caps 0 = true /\ Z.testbit caps 26 = true) /\
  w_tick (snd (queryCapabilities K c w)) = S (w_tick w) /\
  same_device w (snd (queryCapabilities K c w)).
Proof. exact (queryCapabilities_bits K c w). Qed.

Lemma open_outcome (K : Kernel) (c : V4L2Camera) (w : World)
        (device_path : string) :
  let '(r, c', w') := open K c w device_path in
  isOpen c' = r /\
  (if r
   then fd_ c' = sys_open K w device_path /\
        w_opened w' = fd_ c' :: w_opened w /\ w_closed w' = w_closed w
   else (w_opened w' = w_opened w /\ w_closed w' = w_closed w) \/
        (w_opened w' = sys_open K w device_path :: w_opened w /\
         w_closed w' = sys_open K w device_path :: w_closed w)) /\
  set_fd c' (fd_ c) = c.
Proof.
  unfold open.
  destruct (sys_open K w device_path <? 0) eqn:Efd.
  - unfold isOpen. cbn [fd_ set_fd].
    split; [apply Z.leb_gt; now apply Z.ltb_lt|].
    split; [left; split; reflexivity|]. now destruct c.
  - match goal with
    | |- context [queryCapabilities K ?c1 ?w2] =>
        pose proof (queryCapabilities_handles K c1 w2) as Hq;
        destruct (queryCapabilities K c1 w2) as [ok w3]
    end.
    destruct Hq as (Ho & Ha & Hc). simpl in Ho, Ha, Hc.
    apply Z.ltb_ge in Efd.
    destruct ok; unfold isOpen; cbn [fd_ set_fd].
    + split; [now apply Z.leb_le|]. split; [|now destruct c].
      split; [reflexivity|]. split; assumption.
    + split; [reflexivity|]. split; [|now destruct c].
      right. simpl. rewrite Ho, Hc. split; reflexivity.
Qed.

(** After [open] the answer of [isOpen] is the result of [open].  A
    successful [open] holds the descriptor that [::open] returned and has
    closed nothing; a failed one leaves behind no descriptor it obtained:
    either none was obtained or the one obtained was closed again.  The
    pool, the current buffer and the streaming flag are not touched. *)
Theorem open_result_is_isOpen (K : Kernel) (c : V4L2Camera) (w : World)
        (device_path : string) :
  let '(r, c', w') := open K c w device_path in
  isOpen c' = r /\
  (if r
   then fd_ c' = sys_open K w device_path /\
        w_opened w' = fd_ c' :: w_opened w /\ w_closed w' = w_closed w
   else (w_opened w' = w_opened w /\ w_closed w' = w_closed w) \/
        (w_opened w' = sys_open K w device_path :: w_opened w /\
         w_closed w' = sys_open K w device_path :: w_closed w)) /\
  set_fd c' (fd_ c) = c.
Proof. exact (open_outcome K c w device_path). Qed.

(** [openByFd] never closes a descriptor.  A negative descriptor is turned
    down without a system call and without touching the object; otherwise
    one capability query is issued, and the object holds the descriptor
    when the query succeeds and no descriptor ([fd_ = -1]) when it
    fails. *)
Theorem openByFd_adopts_or_forgets (K : Kernel) (c : V4L2Camera) (w : World)
        (fd : Z) :
  let '(r, c', w') := openByFd K c w fd in
  w_closed w' = w_closed w /\ w_opened w' = w_opened w /\
  (if fd <? 0
   then r = false /\ c' = c /\ w_tick w' = w_tick w
   else w_tick w' = S (w_tick w) /\
        fd_ c' = (if r then fd else -1) /\ isOpen c' = r /\
        w_adopted w' = (if r then fd :: w_adopted w else w_adopted w) /\
        set_fd c' (fd_ c) = c).
Proof.
  unfold openByFd. destruct (fd <? 0) eqn:Efd.
  - repeat split.
  - pose proof (queryCapabilities_bits K (set_fd c fd)
                  (set_handles w (w_opened w) (fd :: w_offered w)
                               (w_adopted w) (w_closed w)))
      as (_ & Htick & Hdev).
    destruct (queryCapabilities K _ _) as [ok w3].
    destruct Hdev as (_ & _ & _ & Ho & Ha & Hc). simpl in Htick, Ho, Ha, Hc.
    apply Z.ltb_ge in Efd.
    destruct ok; unfold isOpen; cbn [fd_ set_fd]; simpl;
      rewrite ?Ho, ?Ha, ?Hc, ?Htick; repeat split;
      try (now apply Z.leb_le); now destruct c.
Qed.

(** [open] on an object that already holds a descriptor does not close
    that descriptor: afterwards the object holds another one or none, and
    the old one has been closed no more often than before. *)
Theorem open_on_open_device_drops_descriptor (K : Kernel) (c : V4L2Camera)
        (w : World) (device_path : string) :
  0 <= fd_ c -> sys_open K w device_path <> fd_ c ->
  let '(r, c', w') := open K c w device_path in
  fd_ c' <> fd_ c /\
  count_occ Z.eq_dec (w_closed w') (fd_ c)
    = count_occ Z.eq_dec (w_closed w) (fd_ c).
Proof.
  intros Hopen Hne.
  pose proof (open_outcome K c w device_path) as H.
  unfold open in *.
  destruct (sys_open K w device_path <? 0) eqn:Efd.
  - cbn [fd_ set_fd]. split; [exact Hne|reflexivity].
  - destruct (queryCapabilities K _ _) as [ok w3].
    destruct ok.
    + destruct H as (_ & (Hfd & _ & Hc) & _). rewrite Hc.
      split; [|reflexivity]. cbn [fd_ set_fd]. exact Hne.
    + destruct H as (_ & [[_ Hc]|[_ Hc]] & _); rewrite Hc.
      * split; [cbn [fd_ set_fd]; lia|reflexivity].
      * split; [cbn [fd_ set_fd]; lia|].
        apply count_occ_cons_neq. exact Hne.
Qed.

Lemma open_on_open_device_drops_descriptor_witness :
  let '(r, c', w') := open good_kernel (set_fd V4L2Camera_new 5) world0
                           "/dev/video0" in
  fd_ c' <> fd_ (set_fd V4L2Camera_new 5) /\
  count_occ Z.eq_dec (w_closed w') (fd_ (set_fd V4L2Camera_new 5))
    = count_occ Z.eq_dec (w_closed world0) (fd_ (set_fd V4L2Camera_new 5)).
Proof.
  apply (open_on_open_device_drops_descriptor good_kernel
           (set_fd V4L2Camera_new 5) world0 "/dev/video0").
  - simpl. lia.
  - simpl. lia.
Defined.

(** ** Stopping and asking for frames *)

(** [stopStreaming] either succeeds and clears the streaming flag, or
    fails and leaves the object as it was with the flag still set.  After a
    success, a second [stopStreaming] succeeds and changes nothing, and
    [getFrame] fails without issuing a system call. *)
Theorem stopStreaming_then_stop_or_getFrame (K K' : Kernel) (c : V4L2Camera)
        (w : World) :
  let '(r, c1, w1) := stopStreaming K c w in
  if r
  then streaming_ c1 = false /\
       stopStreaming K' c1 w1 = (true, c1, w1) /\
       getFrame K' c1 w1 = (None, c1, log (LOGE "Camera is not streaming") w1)
  else streaming_ c1 = true /\ c1 = c /\ same_device w w1.
Proof.
  unfold stopStreaming. destruct (streaming_ c) eqn:Es; cbn [negb].
  - destruct (ioctl_streamoff K w (fd_ c)).
    + unfold getFrame. cbn [streaming_ set_streaming negb]. repeat split.
    + repeat split; try exact Es.
  - unfold getFrame. rewrite ?Es. cbn [negb]. repeat split; try exact Es.
Qed.

Lemma removeZ_keeps (k i : Z) (l : list Z) :
  k <> i -> In k l -> In k (removeZ i l).
Proof.
  intros Hne Hin. unfold removeZ. apply filter_In. split; [exact Hin|].
  apply negb_true_iff. now apply Z.eqb_neq.
Qed.

(** A [getFrame] that gets no frame while streaming still overwrites
    [current_buffer_] with buffer 0, so the frame handed out before is
    forgotten: the following [releaseFrame] offers buffer 0 to the driver
    and a buffer [k <> 0] that was in flight stays in flight. *)
Theorem failed_getFrame_forgets_frame (K : Kernel) (c : V4L2Camera) (w : World)
        (k : Z) :
  streaming_ c = true -> In k (w_inflight w) -> k <> 0 ->
  (forall i used, ioctl_dqbuf K w (fd_ c) <> DqOk i used) ->
  let '(r, c1, w1) := getFrame K c w in
  r = None /\ current_buffer_ c1 = capture_buffer 0 /\
  In k (w_inflight (snd (releaseFrame K c1 w1))).
Proof.
  intros Hs Hin Hk Hno. unfold getFrame. rewrite Hs. cbn [negb].
  destruct (ioctl_dqbuf K w (fd_ c)) as [i used| |] eqn:Ed.
  - exfalso. exact (Hno i used eq_refl).
  - split; [reflexivity|]. split; [reflexivity|]. unfold releaseFrame.
    destruct (ioctl_qbuf K _ _ _); simpl; [|exact Hin].
    apply removeZ_keeps; assumption.
  - split; [reflexivity|]. split; [reflexivity|]. unfold releaseFrame.
    destruct (ioctl_qbuf K _ _ _); simpl; [|exact Hin].
    apply removeZ_keeps; assumption.
Qed.

Lemma failed_getFrame_forgets_frame_witness :
  let s := after kernel_one_frame
                 [OpOpen "/dev/video0"; OpSetFormat 640 480 V4L2_PIX_FMT_YUYV;
                  OpStartStreaming; OpGetFrame] in
  let '(r, c1, w1) := getFrame kernel_one_frame (fst s) (snd s) in
  r = None /\ current_buffer_ c1 = capture_buffer 0 /\
  In 1 (w_inflight (snd (releaseFrame kernel_one_frame c1 w1))).
Proof.
  intro s.
  apply (failed_getFrame_forgets_frame kernel_one_frame (fst s) (snd s) 1).
  - reflexivity.
  - vm_compute. now left.
  - lia.
  - intros i used. vm_compute. discriminate.
Defined.

Lemma nativeGetFrame_calls (K : Kernel) (c : V4L2Camera) (w : World) :
  let '(result, _, w') := nativeGetFrame K (Some c) w in
  if negb (streaming_ c)
  then result = None /\ w_tick w' = w_tick w
  else match ioctl_dqbuf K w (fd_ c) with
       | DqOk _ _ => w_tick w' = S (S (w_tick w))
       | _ => result = None /\ w_tick w' = S (w_tick w)
       end.
Proof.
  unfold nativeGetFrame, getFrame.
  destruct (negb (streaming_ c)); [split; reflexivity|].
  destruct (ioctl_dqbuf K w (fd_ c)) as [i used| |];
    [|split; reflexivity|split; reflexivity].
  unfold releaseFrame. destruct (ioctl_qbuf K _ _ _); reflexivity.
Qed.

(** [nativeGetFrame] issues no system call when the object is not
    streaming, one ([VIDIOC_DQBUF]) when no frame is ready, and two (the
    dequeue and the requeue) when a frame is obtained; without a frame it
    returns null. *)
Theorem nativeGetFrame_system_calls (K : Kernel) (c : V4L2Camera) (w : World) :
  let '(result, _, w') := nativeGetFrame K (Some c) w in
  if negb (streaming_ c)
  then result = None /\ w_tick w' = w_tick w
  else match ioctl_dqbuf K w (fd_ c) with
       | DqOk _ _ => w_tick w' = S (S (w_tick w))
       | _ => result = None /\ w_tick w' = S (w_tick w)
       end.
Proof. exact (nativeGetFrame_calls K c w). Qed.

(** ** Building the pool *)

Lemma seq_snoc (base i : nat) : seq base (S i) = seq base i ++ [(base + i)%nat].
Proof. rewrite seq_S. reflexivity. Qed.

Lemma map_loop_builds (K : Kernel) (base : nat) (old : list (nat * Z))
      (n fuel : nat) :
  forall i c w c' w',
    built base old i n c w -> (i + fuel = n)%nat ->
    map_loop K fuel i c w = (true, c', w') ->
    built base old n n c' w' /\ buffer_count_ c' = buffer_count_ c /\
    w_strays w' = w_strays w /\ w_queued w' = w_queued w.
Proof.
  induction fuel as [|fuel IH]; intros i c w c' w' Hb Hn Hrun;
    cbn [map_loop] in Hrun.
  - injection Hrun as <- <-. rewrite Nat.add_0_r in Hn. subst n.
    split; [exact Hb|]. repeat split.
  - destruct Hb as (bs & ps & regs & Hbs & Hps & Hlb & Hlp & Hnext & Hmap
                    & Hfst & Hslots).
    rewrite Hbs, Hps in Hrun.
    destruct (ioctl_querybuf K w (fd_ c) (Z.of_nat i)) as [[len off]|].
    + destruct (sys_mmap K (tick w) len (fd_ c) off).
      * cbn [do_mmap] in Hrun. apply (IH (S i)) in Hrun; [|  |lia].
        -- destruct Hrun as (H1 & H2 & H3 & H4). repeat split; auto.
        -- exists (upd i (mk_buffer (Z.of_nat i) V4L2_BUF_TYPE_VIDEO_CAPTURE 0
                                    V4L2_MEMORY_MMAP off len) bs),
                  (upd i (Addr (w_next_addr (tick w))) ps),
                  ((w_next_addr w, len) :: regs).
           cbn [buffers_ buffer_start_ set_pool w_next_addr w_mappings tick
                set_memory map fst app].
           rewrite !upd_length, Hnext, Hmap, Hfst.
           split; [reflexivity|]. split; [reflexivity|].
           split; [exact Hlb|]. split; [exact Hlp|].
           split; [lia|]. split; [reflexivity|].
           split; [now rewrite seq_snoc, rev_app_distr|].
           intros j Hj. destruct (Nat.eq_dec j i) as [->|Hne].
           ++ rewrite !nth_upd_same by lia. simpl. repeat split. now left.
           ++ rewrite !nth_upd_other by lia.
              destruct (Hslots j) as (Hp & Hi & Hin); [lia|].
              repeat split; auto. right. rewrite <- Hmap. exact Hin.
      * match type of Hrun with
        | (let '(_, _) := freeBuffers ?c2 ?w2 in _) = _ =>
            destruct (freeBuffers c2 w2) as [cf wf]
        end. discriminate.
    + match type of Hrun with
      | (let '(_, _) := freeBuffers ?c2 ?w2 in _) = _ =>
          destruct (freeBuffers c2 w2) as [cf wf]
      end. discriminate.
Qed.

Lemma built_pool (base : nat) (old : list (nat * Z)) (n : nat)
      (c : V4L2Camera) (w : World) :
  built base old n n c w -> buffer_count_ c = Z.of_nat n ->
  pool_at base n c /\ pool_live base n c w.
Proof.
  intros (bs & ps & regs & Hbs & Hps & Hlb & Hlp & _ & _ & _ & Hslots) Hcnt.
  split.
  - exists bs, ps. repeat split; auto; apply Hslots; assumption.
  - intros i Hi. rewrite Hbs. apply Hslots. exact Hi.
Qed.

Lemma map_loop_streaming (K : Kernel) (fuel : nat) :
  forall i c w r c' w',
    map_loop K fuel i c w = (r, c', w') ->
    streaming_ c' = streaming_ c /\ current_buffer_ c' = current_buffer_ c.
Proof.
  induction fuel as [|fuel IH]; intros i c w r c' w' H; cbn [map_loop] in H.
  - injection H as _ <- _. split; reflexivity.
  - destruct (ioctl_querybuf K w (fd_ c) (Z.of_nat i)) as [[len off]|].
    + destruct (sys_mmap K (tick w) len (fd_ c) off).
      * apply IH in H. exact H.
      * injection H as _ <- _. split; reflexivity.
    + injection H as _ <- _. split; reflexivity.
Qed.

Lemma initBuffers_pool (K : Kernel) (c : V4L2Camera) (w : World)
        (c' : V4L2Camera) (w' : World) :
  initBuffers K c w = Some (true, c', w') ->
  exists n,
    ioctl_reqbufs K w (fd_ c) 4 = Some (Z.of_nat n) /\
    2 <= Z.of_nat n <= INT_MAX /\
    pool_at (w_next_addr w) n c' /\ pool_live (w_next_addr w) n c' w' /\
    built (w_next_addr w) (w_mappings w) n n c' w' /\
    w_strays w' = w_strays w /\
    fd_ c' = fd_ c /\ streaming_ c' = streaming_ c.
Proof.
  unfold initBuffers. intro H.
  destruct (ioctl_reqbufs K w (fd_ c) 4) as [count|]; [|discriminate].
  destruct (count <? 2) eqn:E2; [discriminate|].
  destruct (INT_MAX <? count) eqn:Emax; [discriminate|].
  apply Z.ltb_ge in E2. apply Z.ltb_ge in Emax.
  injection H as H.
  pose proof (map_loop_fd _ _ _ _ _ _ _ _ H) as Hfd.
  pose proof (map_loop_streaming _ _ _ _ _ _ _ _ H) as [Hstr _].
  apply (map_loop_builds K (w_next_addr w) (w_mappings w) (Z.to_nat count))
    in H; [| |reflexivity].
  - destruct H as (Hb & Hcnt & Hstrays & _). simpl in Hcnt, Hstrays.
    exists (Z.to_nat count). rewrite Z2Nat.id by lia.
    split; [reflexivity|]. split; [lia|].
    destruct (built_pool _ _ _ _ _ Hb) as [Hat Hlive];
      [rewrite Hcnt; symmetry; apply Z2Nat.id; lia|].
    repeat split; auto.
  - eexists _, _, []. simpl. rewrite !new_array_length, Nat.add_0_r.
    repeat split; auto; lia.
Qed.

(** When [initBuffers] succeeds the driver granted between 2 and [INT_MAX]
    buffers, [buffer_count_] is that number, both arrays have as many
    elements, every slot points to a region of its own that is live with
    the length its descriptor holds, the regions that were live before are
    still live, and nothing was unmapped. *)
Theorem initBuffers_builds_pool (K : Kernel) (c : V4L2Camera) (w : World)
        (c' : V4L2Camera) (w' : World) :
  initBuffers K c w = Some (true, c', w') ->
  exists n,
    ioctl_reqbufs K w (fd_ c) 4 = Some (Z.of_nat n) /\
    2 <= Z.of_nat n <= INT_MAX /\
    pool_at (w_next_addr w) n c' /\ pool_live (w_next_addr w) n c' w' /\
    built (w_next_addr w) (w_mappings w) n n c' w' /\
    w_strays w' = w_strays w /\
    fd_ c' = fd_ c /\ streaming_ c' = streaming_ c.
Proof. exact (initBuffers_pool K c w c' w'). Qed.

Lemma initBuffers_builds_pool_witness :
  exists n,
    ioctl_reqbufs good_kernel world0 (fd_ opened_camera) 4
      = Some (Z.of_nat n) /\
    2 <= Z.of_nat n <= INT_MAX /\
    pool_at (w_next_addr world0) n (fst built_state) /\
    pool_live (w_next_addr world0) n (fst built_state) (snd built_state).
Proof.
  destruct (initBuffers_builds_pool good_kernel opened_camera world0
              (fst built_state) (snd built_state))
    as (n & H1 & H2 & H3 & H4 & _).
  - vm_compute; reflexivity.
  - exists n. split; [exact H1|]. split; [exact H2|]. split; assumption.
Defined.

(** ** Queueing, and the way back through [close] *)

Lemma queue_loop_queues (K : Kernel) (fuel : nat) :
  forall i c w w',
    queue_loop K fuel i c w = (true, w') ->
    (forall j, (i <= j < i + fuel)%nat -> In (Z.of_nat j) (w_queued w')) /\
    (forall q, In q (w_queued w) -> In q (w_queued w')).
Proof.
  induction fuel as [|fuel IH]; intros i c w w' H; cbn [queue_loop] in H.
  - injection H as <-. split; [intros j Hj; lia|auto].
  - destruct (ioctl_qbuf K w (fd_ c) (capture_buffer (Z.of_nat i)));
      [|discriminate].
    apply IH in H. destruct H as [Hnew Hold].
    assert (Hkeep : forall q, In q (w_queued w) \/ q = Z.of_nat i ->
                              In q (w_queued w')).
    { intros q Hq. apply Hold. simpl.
      destruct (Z.eq_dec q (Z.of_nat i)) as [->|Hne]; [now left|].
      right. destruct Hq as [Hq|Hq]; [|contradiction].
      apply removeZ_keeps; assumption. }
    split.
    + intros j Hj. destruct (Nat.eq_dec j i) as [->|Hne].
      * apply Hkeep. now right.
      * apply Hnew. lia.
    + intros q Hq. apply Hkeep. now left.
Qed.

Lemma queue_loop_memory (K : Kernel) (fuel : nat) :
  forall i c w r w', queue_loop K fuel i c w = (r, w') -> same_memory w w'.
Proof.
  induction fuel as [|fuel IH]; intros i c w r w' H; cbn [queue_loop] in H.
  - injection H as _ <-. repeat split.
  - destruct (ioctl_qbuf K w (fd_ c) (capture_buffer (Z.of_nat i))).
    + apply IH in H. destruct H as (H1 & H2 & H3). simpl in H1, H2, H3.
      repeat split; assumption.
    + injection H as _ <-. repeat split.
Qed.

(** [startStreaming] sets the streaming flag exactly when it succeeds and
    never clears it, and keeps the descriptor.  When it succeeds the pool
    is built as by [initBuffers] (between 2 and [INT_MAX] slots, each a
    live region of its own), every buffer of the pool is with the driver
    and none is in flight. *)
Theorem startStreaming_result (K : Kernel) (c : V4L2Camera) (w : World)
        (r : bool) (c' : V4L2Camera) (w' : World) :
  startStreaming K c w = Some (r, c', w') ->
  streaming_ c' = (r || streaming_ c) /\ fd_ c' = fd_ c /\
  (r = true ->
   exists n,
     2 <= Z.of_nat n <= INT_MAX /\
     pool_at (w_next_addr w) n c' /\ pool_live (w_next_addr w) n c' w' /\
     (forall i, (i < n)%nat -> In (Z.of_nat i) (w_queued w')) /\
     w_inflight w' = [] /\ w_strays w' = w_strays w).
Proof.
  intro H.
  pose proof (startStreaming_handles K c w r c' w' H) as [Hfd _].
  split; [|split; [exact Hfd|]].
  - unfold startStreaming in H.
    destruct (initBuffers K c w) as [[[ri ci] wi]|] eqn:Ei; [|discriminate].
    assert (Hsi : streaming_ ci = streaming_ c).
    { unfold initBuffers in Ei.
      destruct (ioctl_reqbufs K w (fd_ c) 4) as [count|].
      - destruct (count <? 2); [now injection Ei as _ <- _|].
        destruct (INT_MAX <? count); [discriminate|].
        injection Ei as Ei. now apply map_loop_streaming in Ei.
      - now injection Ei as _ <- _. }
    destruct ri.
    + destruct (queue_loop K _ 0 ci wi) as [[|] wq].
      * destruct (ioctl_streamon K wq (fd_ ci)); injection H as <- <- _;
          simpl; auto.
      * injection H as <- <- _. simpl. exact Hsi.
    + injection H as <- <- _. simpl. exact Hsi.
  - intros ->.
    pose proof (startStreaming_inflight K c w c' w' H) as Hfl.
    unfold startStreaming in H.
    destruct (initBuffers K c w) as [[[[|] ci] wi]|] eqn:Ei; try discriminate.
    apply initBuffers_pool in Ei.
    destruct Ei as (n & _ & Hn & Hat & Hlive & _ & Hstr & _ & _).
    assert (Hcnt : buffer_count_ ci = Z.of_nat n).
    { destruct Hat as (bs & ps & _ & _ & _ & _ & Hc & _). exact Hc. }
    destruct (queue_loop K _ 0 ci wi) as [[|] wq] eqn:Eq; [|discriminate].
    pose proof (queue_loop_memory _ _ _ _ _ _ _ Eq) as (Hm & _ & Hs).
    apply queue_loop_queues in Eq. destruct Eq as [Hq _].
    destruct (ioctl_streamon K wq (fd_ ci)); [|discriminate].
    injection H as <- <-. exists n.
    split; [exact Hn|]. split; [exact Hat|]. split.
    { intros i Hi. simpl. rewrite Hm. apply Hlive. exact Hi. }
    split.
    { intros i Hi. simpl. apply Hq. rewrite Hcnt, Nat2Z.id. lia. }
    split; [exact Hfl|]. simpl. now rewrite Hs.
Qed.

Lemma startStreaming_result_witness :
  streaming_ (fst streaming_state) = true /\
  exists n,
    2 <= Z.of_nat n <= INT_MAX /\
    pool_at (w_next_addr (snd format_state)) n (fst streaming_state) /\
    pool_live (w_next_addr (snd format_state)) n (fst streaming_state)
              (snd streaming_state) /\
    (forall i, (i < n)%nat -> In (Z.of_nat i) (w_queued (snd streaming_state)))
    /\ w_inflight (snd streaming_state) = [] /\
    w_strays (snd streaming_state) = w_strays (snd format_state).
Proof.
  destruct (startStreaming_result good_kernel
              (fst format_state) (snd format_state) true
              (fst streaming_state) (snd streaming_state))
    as (H1 & _ & H3).
  - vm_compute; reflexivity.
  - split; [exact H1|]. apply H3. reflexivity.
Defined.

Lemma filter_all {A : Type} (f : A -> bool) (l : list A) :
  (forall x, In x l -> f x = true) -> filter f l = l.
Proof.
  induction l as [|x l IH]; simpl; intro H; [reflexivity|].
  rewrite (H x) by now left. f_equal. apply IH. intros y Hy. apply H. now right.
Qed.

Lemma filter_none {A : Type} (f : A -> bool) (l : list A) :
  (forall x, In x l -> f x = false) -> filter f l = [].
Proof.
  induction l as [|x l IH]; simpl; intro H; [reflexivity|].
  rewrite (H x) by now left. apply IH. intros y Hy. apply H. now right.
Qed.

Lemma filter_range_step (a hi : nat) (l : list (nat * Z)) :
  (a < hi)%nat ->
  filter (fun m => negb (starts_in (S a) hi m)) (filter (not_at a) l)
  = filter (fun m => negb (starts_in a hi m)) l.
Proof.
  intro Hlt. induction l as [|m l IH]; [reflexivity|].
  cbn [filter]. unfold not_at at 1, starts_in at 2.
  destruct (Nat.eqb_spec (fst m) a) as [E|E]; cbn [negb].
  - rewrite E.
    replace (Nat.leb a a) with true by (symmetry; apply Nat.leb_le; lia).
    replace (Nat.ltb a hi) with true by (symmetry; apply Nat.ltb_lt; lia).
    cbn [andb negb]. exact IH.
  - cbn [filter]. unfold starts_in at 1.
    replace (Nat.leb (S a) (fst m)) with (Nat.leb a (fst m)).
    + destruct (negb (Nat.leb a (fst m) && Nat.ltb (fst m) hi));
        [f_equal|]; exact IH.
    + destruct (Nat.leb_spec a (fst m)); destruct (Nat.leb_spec (S a) (fst m));
        try reflexivity; lia.
Qed.

Lemma is_mapped_after_munmap (a b : nat) (len : Z) (w : World) :
  a <> b -> is_mapped b w = true ->
  is_mapped b (sys_munmap (Addr a) len w) = true.
Proof.
  intros Hne Hb. unfold is_mapped in *. rewrite munmap_mappings.
  apply existsb_exists in Hb. destruct Hb as (m & Hin & Hm).
  apply existsb_exists. exists m. split; [|exact Hm].
  apply filter_In. split; [exact Hin|].
  unfold not_at. apply Nat.eqb_eq in Hm. apply negb_true_iff.
  apply Nat.eqb_neq. lia.
Qed.

(** The loop of [freeBuffers] over slots that point to live regions of
    their own, slot [j] at [base + j]: each region is unmapped once,
    nothing else is, and no call misses. *)
Lemma unmap_loop_pool (base : nat) (ps : list ptr) (bs : list v4l2_buffer)
      (fuel : nat) :
  forall i w,
    (forall j, (i <= j < i + fuel)%nat -> nth j ps Null = Addr (base + j)) ->
    (forall j, (i <= j < i + fuel)%nat -> is_mapped (base + j) w = true) ->
    w_mappings (unmap_loop fuel i ps bs w)
      = filter (fun m => negb (starts_in (base + i) (base + i + fuel) m))
               (w_mappings w) /\
    w_strays (unmap_loop fuel i ps bs w) = w_strays w /\
    w_next_addr (unmap_loop fuel i ps bs w) = w_next_addr w.
Proof.
  induction fuel as [|fuel IH]; intros i w Hps Hlive; cbn [unmap_loop].
  - split; [|split; reflexivity]. symmetry. apply filter_all.
    intros m _. unfold starts_in. apply negb_true_iff.
    destruct (Nat.leb_spec (base + i) (fst m));
      destruct (Nat.ltb_spec (fst m) (base + i + 0)); try reflexivity; lia.
  - rewrite (Hps i) by lia. cbn [ptr_eqb orb].
    set (w1 := sys_munmap (Addr (base + i))
                          (b_length (nth i bs zero_buffer)) w).
    destruct (IH (S i) w1) as (Hm & Hs & Hn).
    + intros j Hj. apply Hps. lia.
    + intros j Hj. apply is_mapped_after_munmap; [lia|]. apply Hlive. lia.
    + assert (Hw1 : w_strays w1 = w_strays w /\ w_next_addr w1 = w_next_addr w).
      { unfold w1, sys_munmap. rewrite (Hlive i) by lia. split; reflexivity. }
      destruct Hw1 as [Hs1 Hn1].
      rewrite Hm, Hs, Hn, Hs1, Hn1. split; [|split; reflexivity].
      unfold w1. rewrite munmap_mappings.
      replace (base + S i)%nat with (S (base + i)) by lia.
      replace (S (base + i) + fuel)%nat with (base + i + S fuel)%nat by lia.
      apply filter_range_step. lia.
Qed.

Lemma built_frame (base : nat) (old : list (nat * Z)) (i n : nat)
      (c c' : V4L2Camera) (w w' : World) :
  buffers_ c' = buffers_ c -> buffer_start_ c' = buffer_start_ c ->
  same_memory w w' -> built base old i n c w -> built base old i n c' w'.
Proof.
  intros Hb Hp (Hm & Hn & _) (bs & ps & regs & H).
  exists bs, ps, regs. rewrite Hb, Hp, Hm, Hn. exact H.
Qed.

Lemma quiet_step (K : Kernel) (op : Op) (c : V4L2Camera) (w : World)
      (c' : V4L2Camera) (w' : World) :
  quiet_op op = true -> step K op (c, w) = Some (c', w') ->
  buffers_ c' = buffers_ c /\ buffer_start_ c' = buffer_start_ c /\
  buffer_count_ c' = buffer_count_ c /\ same_memory w w'.
Proof.
  intros Hq Hstep. destruct op; try discriminate; cbn [step] in Hstep.
  - unfold setFormat in Hstep.
    destruct (ioctl_s_fmt K w (fd_ c) _); injection Hstep as <- <-;
      repeat split.
  - unfold stopStreaming in Hstep.
    destruct (negb (streaming_ c)); [|destruct (ioctl_streamoff K w (fd_ c))];
      injection Hstep as <- <-; repeat split.
  - unfold getFrame in Hstep.
    destruct (negb (streaming_ c));
      [|destruct (ioctl_dqbuf K w (fd_ c)) as [i used| |]];
      injection Hstep as <- <-; repeat split.
  - unfold releaseFrame in Hstep.
    destruct (ioctl_qbuf K w (fd_ c) (current_buffer_ c));
      injection Hstep as <- <-; repeat split.
Qed.

Lemma quiet_run (K : Kernel) (ops : list Op) :
  forall c w c' w',
    forallb quiet_op ops = true -> run K ops (c, w) = Some (c', w') ->
    buffers_ c' = buffers_ c /\ buffer_start_ c' = buffer_start_ c /\
    buffer_count_ c' = buffer_count_ c /\ same_memory w w'.
Proof.
  induction ops as [|op rest IH]; intros c w c' w' Hq Hrun; cbn [run] in Hrun.
  - injection Hrun as <- <-. repeat split.
  - cbn [forallb] in Hq. apply andb_true_iff in Hq. destruct Hq as [Hop Hrest].
    destruct (step K op (c, w)) as [[c1 w1]|] eqn:Es; [|discriminate].
    destruct (quiet_step K op c w c1 w1 Hop Es) as (H1 & H2 & H3 & H4 & H5 & H6).
    destruct (IH c1 w1 c' w' Hrest Hrun) as (G1 & G2 & G3 & G4 & G5 & G6).
    repeat split; congruence.
Qed.

Lemma freeBuffers_built (base : nat) (old : list (nat * Z)) (n : nat)
      (c : V4L2Camera) (w : World) :
  built base old n n c w -> buffer_count_ c = Z.of_nat n ->
  (forall m, In m old -> (fst m < base)%nat) ->
  w_mappings (snd (freeBuffers c w)) = old /\
  w_strays (snd (freeBuffers c w)) = w_strays w /\
  w_next_addr (snd (freeBuffers c w)) = w_next_addr w.
Proof.
  intros (bs & ps & regs & Hbs & Hps & Hlb & Hlp & Hnext & Hmap & Hfst & Hslots)
         Hcnt Hold.
  unfold freeBuffers. rewrite Hps, Hbs, Hcnt, Nat2Z.id. cbn [snd].
  destruct (unmap_loop_pool base ps bs n 0 w) as (Hm & Hs & Hn).
  - intros j Hj. apply Hslots. lia.
  - intros j Hj. unfold is_mapped. apply existsb_exists.
    destruct (Hslots j) as (_ & _ & Hin); [lia|].
    eexists. split; [exact Hin|]. apply Nat.eqb_refl.
  - split; [|split; assumption]. rewrite Hm, Hmap, filter_app.
    rewrite filter_none, filter_all; [reflexivity| |].
    + intros m Hin. apply Hold in Hin. unfold starts_in.
      apply negb_true_iff. apply andb_false_iff. left.
      apply Nat.leb_gt. lia.
    + intros m Hin. unfold starts_in. apply negb_false_iff.
      assert (Hr : In (fst m) (rev (seq base n)))
        by (rewrite <- Hfst; now apply in_map).
      apply in_rev, in_seq in Hr.
      apply andb_true_iff. split; [apply Nat.leb_le|apply Nat.ltb_lt]; lia.
Qed.

(** The pool comes back whole.  Once [initBuffers] has built the pool,
    whether [startStreaming] then succeeds or fails, and whatever sequence
    of [setFormat], [getFrame], [releaseFrame] and [stopStreaming] calls
    follows, [close] unmaps every region of the pool exactly once: the
    live regions are again those from before [startStreaming], no
    [munmap] missed, and the object holds no pool. *)
Theorem pool_unmapped_by_close (K : Kernel) (c : V4L2Camera) (w : World)
        (cm : V4L2Camera) (wm : World) (r : bool) (c1 : V4L2Camera)
        (w1 : World) (ops : list Op) (c2 : V4L2Camera) (w2 : World) :
  addresses_below_next w ->
  initBuffers K c w = Some (true, cm, wm) ->
  startStreaming K c w = Some (r, c1, w1) ->
  forallb quiet_op ops = true ->
  run K ops (c1, w1) = Some (c2, w2) ->
  w_mappings (snd (close K c2 w2)) = w_mappings w /\
  w_strays (snd (close K c2 w2)) = w_strays w /\
  no_pool (fst (close K c2 w2)).
Proof.
  intros Hbelow Hinit Hstart Hq Hrun.
  destruct (initBuffers_pool K c w cm wm Hinit)
    as (n & _ & _ & Hat & _ & Hb & Hstrays & _ & _).
  assert (Hcnt : buffer_count_ cm = Z.of_nat n).
  { destruct Hat as (bs & ps & _ & _ & _ & _ & Hc & _). exact Hc. }
  (* after startStreaming the pool and the memory are those of initBuffers *)
  assert (H1 : buffers_ c1 = buffers_ cm /\ buffer_start_ c1 = buffer_start_ cm
               /\ buffer_count_ c1 = buffer_count_ cm /\ same_memory wm w1).
  { unfold startStreaming in Hstart. rewrite Hinit in Hstart.
    destruct (queue_loop K _ 0 cm wm) as [[|] wq] eqn:Eq.
    - pose proof (queue_loop_memory _ _ _ _ _ _ _ Eq) as (Hm1 & Hm2 & Hm3).
      destruct (ioctl_streamon K wq (fd_ cm)); injection Hstart as _ <- <-;
        repeat split; assumption.
    - pose proof (queue_loop_memory _ _ _ _ _ _ _ Eq) as Hm.
      injection Hstart as _ <- <-. repeat split; apply Hm. }
  destruct H1 as (Hb1 & Hp1 & Hc1 & Hm1).
  destruct (quiet_run K ops c1 w1 c2 w2 Hq Hrun) as (Hb2 & Hp2 & Hc2 & Hm2).
  (* close: stopStreaming, then freeBuffers, then ::close *)
  unfold close.
  assert (Hstop : exists c3 w3,
             (if streaming_ c2
              then let '(_, c3, w3) := stopStreaming K c2 w2 in (c3, w3)
              else (c2, w2)) = (c3, w3) /\
             buffers_ c3 = buffers_ c2 /\ buffer_start_ c3 = buffer_start_ c2 /\
             buffer_count_ c3 = buffer_count_ c2 /\ same_memory w2 w3).
  { destruct (streaming_ c2) eqn:Es.
    - unfold stopStreaming. rewrite Es. cbn [negb].
      destruct (ioctl_streamoff K w2 (fd_ c2)); eexists _, _;
        (split; [reflexivity|]); repeat split.
    - eexists _, _. split; [reflexivity|]. repeat split. }
  destruct Hstop as (c3 & w3 & -> & Hb3 & Hp3 & Hc3 & Hm3).
  assert (Hbuilt : built (w_next_addr w) (w_mappings w) n n c3 w3).
  { eapply built_frame; [| | |exact Hb]; try congruence.
    destruct Hm1 as (?&?&?), Hm2 as (?&?&?), Hm3 as (?&?&?).
    repeat split; congruence. }
  destruct (freeBuffers_built _ _ _ c3 w3 Hbuilt) as (Fm & Fs & _);
    [congruence|exact Hbelow|].
  pose proof (freeBuffers_camera c3 w3) as Hcam.
  destruct (freeBuffers c3 w3) as [c4 w4]. cbn [fst snd] in *. subst c4.
  assert (Hs3 : w_strays w3 = w_strays w).
  { destruct Hm1 as (_&_&?), Hm2 as (_&_&?), Hm3 as (_&_&?). congruence. }
  destruct (0 <=? fd_ (set_pool c3 None None 0)); cbn [fst snd];
    simpl; rewrite Fm, Fs, Hs3; repeat split.
Qed.

Lemma pool_unmapped_by_close_witness :
  w_mappings (snd (close good_kernel (fst used_state) (snd used_state)))
    = w_mappings (snd format_state) /\
  w_strays (snd (close good_kernel (fst used_state) (snd used_state)))
    = w_strays (snd format_state) /\
  no_pool (fst (close good_kernel (fst used_state) (snd used_state))).
Proof.
  apply (pool_unmapped_by_close good_kernel
           (fst format_state) (snd format_state)
           (fst pool_built_state) (snd pool_built_state)
           true (fst streaming_state) (snd streaming_state)
           [OpGetFrame; OpReleaseFrame]
           (fst used_state) (snd used_state)).
  - intros m Hm. vm_compute in Hm. contradiction.
  - vm_compute; reflexivity.
  - vm_compute; reflexivity.
  - reflexivity.
  - vm_compute; reflexivity.
Defined.

(** ** [close] *)

Lemma close_outcome (K : Kernel) (c : V4L2Camera) (w : World) :
  let '(c', w') := close K c w in
  isOpen c' = false /\ no_pool c' /\
  w_closed w' = held_handle c ++ w_closed w /\
  current_buffer_ c' = current_buffer_ c /\
  streaming_ c' = (streaming_ c && negb (ioctl_streamoff K w (fd_ c))).
Proof.
  unfold close, stopStreaming.
  destruct (streaming_ c) eqn:Es; cbn [negb andb].
  - destruct (ioctl_streamoff K w (fd_ c)) eqn:Eoff; cbn [negb].
    + match goal with
      | |- context [freeBuffers ?c1 ?w1] =>
          pose proof (freeBuffers_handles c1 w1) as (_ & _ & Hc);
          pose proof (freeBuffers_camera c1 w1) as Hcam;
          destruct (freeBuffers c1 w1) as [c2 w2]
      end.
      cbn [fst snd] in Hc, Hcam. subst c2. unfold isOpen, held_handle.
      cbn [fd_ set_pool set_streaming set_fd].
      destruct (0 <=? fd_ c) eqn:Efd; cbn [fd_ set_fd set_pool];
        simpl; rewrite ?Hc, ?Efd; repeat split; auto.
    + match goal with
      | |- context [freeBuffers ?c1 ?w1] =>
          pose proof (freeBuffers_handles c1 w1) as (_ & _ & Hc);
          pose proof (freeBuffers_camera c1 w1) as Hcam;
          destruct (freeBuffers c1 w1) as [c2 w2]
      end.
      cbn [fst snd] in Hc, Hcam. subst c2. unfold isOpen, held_handle.
      cbn [fd_ set_pool set_streaming set_fd].
      destruct (0 <=? fd_ c) eqn:Efd; cbn [fd_ set_fd set_pool];
        simpl; rewrite ?Hc, ?Efd; repeat split; auto.
  - match goal with
    | |- context [freeBuffers ?c1 ?w1] =>
        pose proof (freeBuffers_handles c1 w1) as (_ & _ & Hc);
        pose proof (freeBuffers_camera c1 w1) as Hcam;
        destruct (freeBuffers c1 w1) as [c2 w2]
    end.
    cbn [fst snd] in Hc, Hcam. subst c2. unfold isOpen, held_handle.
    cbn [fd_ set_pool set_streaming set_fd].
    destruct (0 <=? fd_ c) eqn:Efd; cbn [fd_ set_fd set_pool];
      simpl; rewrite ?Hc, ?Efd; repeat split; auto.
Qed.

(** Whatever the state, [close] leaves an object that holds no descriptor
    and no pool; it gives to [::close] exactly the descriptor the object
    held, once, and none when it held none; the current buffer is kept, and
    the streaming flag stays set only when it was set and
    [VIDIOC_STREAMOFF] failed. *)
Theorem close_leaves_closed (K : Kernel) (c : V4L2Camera) (w : World) :
  let '(c', w') := close K c w in
  isOpen c' = false /\ no_pool c' /\
  w_closed w' = held_handle c ++ w_closed w /\
  current_buffer_ c' = current_buffer_ c /\
  streaming_ c' = (streaming_ c && negb (ioctl_streamoff K w (fd_ c))).
Proof. exact (close_outcome K c w). Qed.

Lemma close_of_closed (K : Kernel) (c : V4L2Camera) (w : World) :
  isOpen c = false -> buffer_start_ c = None ->
  w_closed (snd (close K c w)) = w_closed w /\
  same_memory w (snd (close K c w)) /\
  fd_ (fst (close K c w)) = fd_ c /\ no_pool (fst (close K c w)).
Proof.
  unfold isOpen. intros Hopen Hp. unfold close, stopStreaming, freeBuffers.
  destruct (streaming_ c); cbn [negb];
    [destruct (ioctl_streamoff K w (fd_ c))|];
    cbn [buffer_start_ set_streaming fd_ set_pool fst snd];
    rewrite Hp, Hopen; repeat split.
Qed.

(** A second [close], right after a first one, closes no descriptor,
    unmaps nothing and misses no [munmap]: the descriptor and the regions
    released by the first are not released again. *)
Theorem close_twice_releases_nothing (K K' : Kernel) (c : V4L2Camera)
        (w : World) :
  let '(c1, w1) := close K c w in
  w_closed (snd (close K' c1 w1)) = w_closed w1 /\
  same_memory w1 (snd (close K' c1 w1)) /\
  fd_ (fst (close K' c1 w1)) = fd_ c1 /\ no_pool (fst (close K' c1 w1)).
Proof.
  pose proof (close_outcome K c w) as H1.
  destruct (close K c w) as [c1 w1].
  destruct H1 as (Hopen & (_ & Hp & _) & _).
  apply close_of_closed; assumption.
Qed.

(** ** What every reachable object looks like *)

Lemma pool_shaped_frame (c c' : V4L2Camera) :
  buffers_ c' = buffers_ c -> buffer_start_ c' = buffer_start_ c ->
  buffer_count_ c' = buffer_count_ c -> pool_shaped c -> pool_shaped c'.
Proof. unfold pool_shaped. intros -> -> ->. exact (fun H => H). Qed.

Lemma map_loop_shape (K : Kernel) (fuel : nat) :
  forall i c w r c' w',
    (exists bs ps,
       buffers_ c = Some bs /\ buffer_start_ c = Some ps /\
       Z.of_nat (List.length bs) = buffer_count_ c /\
       Z.of_nat (List.length ps) = buffer_count_ c /\
       2 <= buffer_count_ c <= INT_MAX) ->
    map_loop K fuel i c w = (r, c', w') -> pool_shaped c'.
Proof.
  induction fuel as [|fuel IH]; intros i c w r c' w' Hc H; cbn [map_loop] in H.
  - injection H as _ <- _. right. exact Hc.
  - destruct Hc as (bs & ps & Hbs & Hps & Hlb & Hlp & Hrange).
    rewrite Hbs, Hps in H.
    destruct (ioctl_querybuf K w (fd_ c) (Z.of_nat i)) as [[len off]|].
    + destruct (sys_mmap K (tick w) len (fd_ c) off).
      * apply IH in H; [exact H|].
        exists (upd i (mk_buffer (Z.of_nat i) V4L2_BUF_TYPE_VIDEO_CAPTURE 0
                                 V4L2_MEMORY_MMAP off len) bs),
               (upd i (fst (do_mmap len (tick w))) ps).
        cbn [buffers_ buffer_start_ buffer_count_ set_pool].
        rewrite !upd_length. repeat split; auto; apply Hrange.
      * injection H as _ <- _. left. repeat split.
    + injection H as _ <- _. left. repeat split.
Qed.

Lemma step_shaped (K : Kernel) (op : Op) (c : V4L2Camera) (w : World)
      (c' : V4L2Camera) (w' : World) :
  pool_shaped c -> step K op (c, w) = Some (c', w') -> pool_shaped c'.
Proof.
  intros Hs Hstep.
  destruct (quiet_op op) eqn:Hq.
  - destruct (quiet_step K op c w c' w' Hq Hstep) as (H1 & H2 & H3 & _).
    eapply pool_shaped_frame; eauto.
  - destruct op; try discriminate; cbn [step] in Hstep.
    + pose proof (open_outcome K c w device_path) as H.
      destruct (open K c w device_path) as [[r c1] w1].
      injection Hstep as <- <-. destruct H as (_ & _ & Heq).
      rewrite <- Heq in Hs.
      eapply pool_shaped_frame; [| | |exact Hs]; reflexivity.
    + unfold openByFd in Hstep. destruct (fd <? 0).
      * injection Hstep as <- <-. exact Hs.
      * destruct (queryCapabilities K _ _) as [[|] w3];
          injection Hstep as <- <-;
          (eapply pool_shaped_frame; [| | |exact Hs]); reflexivity.
    + unfold startStreaming, initBuffers in Hstep.
      destruct (ioctl_reqbufs K w (fd_ c) 4) as [count|].
      * destruct (count <? 2) eqn:E2; [injection Hstep as <- <-; exact Hs|].
        destruct (INT_MAX <? count) eqn:Emax; [discriminate|].
        apply Z.ltb_ge in E2. apply Z.ltb_ge in Emax.
        destruct (map_loop K _ 0 _ _) as [[[|] cm] wm] eqn:Em.
        -- apply map_loop_shape in Em.
           ++ destruct (queue_loop K _ 0 cm wm) as [[|] wq].
              ** destruct (ioctl_streamon K wq (fd_ cm));
                   injection Hstep as <- <-; exact Em.
              ** injection Hstep as <- <-; exact Em.
           ++ exists (new_array (Z.to_nat count)
                                (fresh_buffer K (reset_queues (tick w)))),
                     (new_array (Z.to_nat count)
                                (fresh_ptr K (reset_queues (tick w)))).
              cbn [buffers_ buffer_start_ buffer_count_ set_pool].
              rewrite !new_array_length, Z2Nat.id by lia.
              repeat split; auto.
        -- apply map_loop_shape in Em.
           ++ injection Hstep as <- <-; exact Em.
           ++ exists (new_array (Z.to_nat count)
                                (fresh_buffer K (reset_queues (tick w)))),
                     (new_array (Z.to_nat count)
                                (fresh_ptr K (reset_queues (tick w)))).
              cbn [buffers_ buffer_start_ buffer_count_ set_pool].
              rewrite !new_array_length, Z2Nat.id by lia.
              repeat split; auto.
      * injection Hstep as <- <-. exact Hs.
    + injection Hstep as Hclose.
      pose proof (close_outcome K c w) as H. rewrite Hclose in H.
      left. apply H.
Qed.

(** Along every sequence of calls on a new object, after every call, the
    two arrays of the pool are both null with [buffer_count_ = 0], or both
    hold exactly [buffer_count_] elements with
    [2 <= buffer_count_ <= INT_MAX]: the loops of [freeBuffers] and
    [startStreaming], which run up to [buffer_count_], stay inside the
    arrays. *)
Theorem reachable_pool_is_shaped (K : Kernel) (ops : list Op) :
  Forall (fun s => pool_shaped (fst s)) (states K ops (V4L2Camera_new, world0)).
Proof.
  assert (H : forall s, pool_shaped (fst s) ->
                        Forall (fun s => pool_shaped (fst s)) (states K ops s)).
  { induction ops as [|op rest IH]; intros [c w] Hs; cbn [states].
    - constructor.
    - destruct (step K op (c, w)) as [[c1 w1]|] eqn:Es; [|constructor].
      pose proof (step_shaped K op c w c1 w1 Hs Es) as H1.
      constructor; [exact H1|]. apply IH. exact H1. }
  apply H. left. repeat split.
Qed.

(** * Further properties of the USB backend *)

Lemma streaming_loop_frame (conn : UVC.UsbDeviceConnection)
      (ifs : list UVC.UsbInterface) :
  forall i h r h',
    UVC.streaming_loop conn ifs i h = (r, h') ->
    UVC.h_global_refs h' = UVC.h_global_refs h /\
    UVC.h_arrays h' = UVC.h_arrays h /\
    UVC.h_next_array h' = UVC.h_next_array h /\
    UVC.h_transfers h' = UVC.h_transfers h.
Proof.
  induction ifs as [|u rest IH]; intros i h r h' H;
    cbn [UVC.streaming_loop] in H.
  - injection H as _ <-. repeat split.
  - destruct (_ && _).
    + destruct (UVC.claimInterface conn i).
      * injection H as _ <-. repeat split.
      * apply IH in H. exact H.
    + apply IH in H. exact H.
Qed.

(** On an object that holds no reference, [open] followed by [close]
    gives back every JNI global reference [open] took, whether [open]
    succeeded or failed, and leaves the object without connection, device
    or endpoint; the interface [open] claimed is not released by
    [close]. *)
Theorem uvc_open_close_balances_references (c : UVC.UVCCamera) (h : UVC.Host)
        (conn : UVC.UsbDeviceConnection) (dev : UVC.UsbDevice) :
  UVC.bulkEndpoint_ c = None ->
  let '(r, c1, h1) := UVC.open c h conn dev in
  let '(c2, h2) := UVC.close c1 h1 in
  UVC.h_global_refs h2 = UVC.h_global_refs h /\
  UVC.h_claimed h2 = UVC.h_claimed h1 /\
  UVC.env_ c2 = false /\ UVC.usbConnection_ c2 = None /\
  UVC.usbDevice_ c2 = None /\ UVC.bulkEndpoint_ c2 = None.
Proof.
  intros Hep. unfold UVC.open, UVC.findStreamingInterface.
  cbn [UVC.usbConnection_ UVC.usbDevice_].
  destruct (UVC.streaming_loop conn dev 0 _) as [[|] h2] eqn:Es; cbn [negb];
    apply streaming_loop_frame in Es; destruct Es as (Hr & _);
    cbn [UVC.h_global_refs UVC.set_refs] in Hr.
  - unfold UVC.findBulkEndpoint. cbn [UVC.usbDevice_].
    destruct (UVC.interface_loop dev 0) as [e|]; cbn [negb];
      unfold UVC.close, UVC.stopStreaming;
      cbn [UVC.streaming_ UVC.set_endpoint UVC.set_streaming];
      destruct (UVC.streaming_ c); destruct (UVC.frameBuffer_ c);
      cbn; rewrite ?Hep; cbn; rewrite Hr; repeat split; lia.
  - unfold UVC.close, UVC.stopStreaming.
    cbn [UVC.streaming_ UVC.set_streaming].
    destruct (UVC.streaming_ c); destruct (UVC.frameBuffer_ c);
      cbn; rewrite ?Hep; cbn; rewrite Hr; repeat split; lia.
Qed.

Lemma uvc_open_close_balances_references_witness :
  let '(r, c1, h1) :=
    UVC.open UVC.UVCCamera_new UVC.host0 willing_connection webcam in
  let '(c2, h2) := UVC.close c1 h1 in
  UVC.h_global_refs h2 = UVC.h_global_refs UVC.host0 /\
  UVC.h_claimed h2 = UVC.h_claimed h1 /\
  UVC.env_ c2 = false /\ UVC.usbConnection_ c2 = None /\
  UVC.usbDevice_ c2 = None /\ UVC.bulkEndpoint_ c2 = None.
Proof.
  apply (uvc_open_close_balances_references UVC.UVCCamera_new UVC.host0
           willing_connection webcam).
  reflexivity.
Defined.

(** On an object without endpoint, [startStreaming] after [open] succeeds
    exactly when [open] succeeded, and [isStreaming] then answers the
    same. *)
Theorem uvc_startStreaming_follows_open (c : UVC.UVCCamera) (h : UVC.Host)
        (conn : UVC.UsbDeviceConnection) (dev : UVC.UsbDevice) :
  UVC.bulkEndpoint_ c = None -> UVC.streaming_ c = false ->
  let '(r, c1, h1) := UVC.open c h conn dev in
  let '(r', c2, h2) := UVC.startStreaming c1 h1 in
  r' = r /\ UVC_isStreaming c2 = r.
Proof.
  intros Hep Hs. unfold UVC.open, UVC.findStreamingInterface.
  cbn [UVC.usbConnection_ UVC.usbDevice_].
  destruct (UVC.streaming_loop conn dev 0 _) as [[|] h2]; cbn [negb].
  - unfold UVC.findBulkEndpoint. cbn [UVC.usbDevice_].
    destruct (UVC.interface_loop dev 0) as [e|]; cbn [negb];
      unfold UVC.startStreaming, UVC_isStreaming; cbn; rewrite ?Hep, ?Hs;
      split; reflexivity.
  - unfold UVC.startStreaming, UVC_isStreaming. cbn. rewrite Hep, Hs.
    split; reflexivity.
Qed.

Lemma uvc_startStreaming_follows_open_witness :
  let '(r, c1, h1) :=
    UVC.open UVC.UVCCamera_new UVC.host0 willing_connection composite_device in
  let '(r', c2, h2) := UVC.startStreaming c1 h1 in
  r' = r /\ UVC_isStreaming c2 = r.
Proof.
  apply (uvc_startStreaming_follows_open UVC.UVCCamera_new UVC.host0
           willing_connection composite_device); reflexivity.
Defined.

(** [setFormat] never frees the frame buffer it replaces: the array the
    object pointed to is still allocated after [setFormat], the object
    points to another one, and a following [close] frees only that other
    one. *)
Theorem uvc_setFormat_leaks_old_buffer (c : UVC.UVCCamera) (h : UVC.Host)
        (width height : Z) (a : nat) (r : bool) (c1 : UVC.UVCCamera)
        (h1 : UVC.Host) :
  UVC.frameBuffer_ c = Some a -> In a (UVC.h_arrays h) ->
  (a < UVC.h_next_array h)%nat ->
  UVC.setFormat c h width height = Some (r, c1, h1) ->
  UVC.frameBuffer_ c1 <> Some a /\ In a (UVC.h_arrays h1) /\
  In a (UVC.h_arrays (snd (UVC.close c1 h1))) /\
  UVC.frameBuffer_ (fst (UVC.close c1 h1)) = None.
Proof.
  intros Hfb Hin Hlt Hset. unfold UVC.setFormat in Hset.
  destruct (_ || _); [discriminate|]. injection Hset as _ <- <-.
  cbn [UVC.frameBuffer_ UVC.h_arrays UVC.set_arrays].
  split; [intros [= E]; lia|]. split; [now right|].
  assert (Hkeep : In a (filter (fun b => negb (Nat.eqb b (UVC.h_next_array h)))
                               (UVC.h_next_array h :: UVC.h_arrays h))).
  { apply filter_In. split; [now right|].
    apply negb_true_iff, Nat.eqb_neq. lia. }
  unfold UVC.close, UVC.stopStreaming.
  cbn [UVC.streaming_ UVC.frameBuffer_ UVC.set_streaming UVC.env_].
  destruct (UVC.streaming_ c); destruct (UVC.env_ c);
    cbn; (split; [exact Hkeep|reflexivity]).
Qed.

Lemma uvc_setFormat_leaks_old_buffer_witness :
  UVC.frameBuffer_ (fst uvc_reformatted_state) <> Some 0%nat /\
  In 0%nat (UVC.h_arrays (snd uvc_reformatted_state)) /\
  In 0%nat (UVC.h_arrays (snd (UVC.close (fst uvc_reformatted_state)
                                         (snd uvc_reformatted_state)))) /\
  UVC.frameBuffer_ (fst (UVC.close (fst uvc_reformatted_state)
                                   (snd uvc_reformatted_state))) = None.
Proof.
  apply (uvc_setFormat_leaks_old_buffer
           (fst uvc_streaming_state) (snd uvc_streaming_state) 320 240 0%nat
           true (fst uvc_reformatted_state) (snd uvc_reformatted_state)).
  - reflexivity.
  - vm_compute. now left.
  - vm_compute. lia.
  - vm_compute; reflexivity.
Defined.

(** [getFrame] leaves the object as it was.  It hands out a frame only
    while streaming with a frame buffer, a connection and an endpoint, and
    then the frame is the frame buffer of the object with the positive
    byte count of the one bulk transfer it issued; when the object is not
    streaming or has no frame buffer it issues no transfer at all. *)
Theorem uvc_getFrame_result (c : UVC.UVCCamera) (h : UVC.Host) :
  let '(r, c', h') := UVC.getFrame c h in
  c' = c /\
  match r with
  | Some (buffer, size) =>
      UVC.streaming_ c = true /\ UVC.frameBuffer_ c = Some buffer /\
      0 < size /\ UVC.h_transfers h' = S (UVC.h_transfers h) /\
      (exists conn, UVC.usbConnection_ c = Some conn /\
                    size = UVC.bulkTransferResult conn (UVC.h_transfers h)
                                                  (UVC.frameBufferSize_ c)) /\
      UVC.bulkEndpoint_ c <> None
  | None => True
  end /\
  (if UVC.streaming_ c
   then match UVC.frameBuffer_ c with
        | Some _ => True
        | None => r = None /\ h' = h
        end
   else r = None /\ h' = h).
Proof.
  unfold UVC.getFrame, UVC.bulkTransfer.
  destruct (UVC.streaming_ c) eqn:Es.
  - destruct (UVC.frameBuffer_ c) as [fb|] eqn:Ef.
    + destruct (UVC.usbConnection_ c) as [conn|] eqn:Ec.
      * destruct (UVC.bulkEndpoint_ c) as [e|] eqn:Ee.
        -- destruct (0 <? _) eqn:Epos.
           ++ split; [reflexivity|]. apply Z.ltb_lt in Epos.
              split; [|exact I].
              repeat split; auto; [exists conn; auto|discriminate].
           ++ repeat split.
        -- cbn. repeat split.
      * cbn. repeat split.
    + repeat split.
  - repeat split.
Qed.

(** [close] is idempotent: a second [close] changes neither the object nor
    the host.  After [close] the object is not streaming and has no frame
    buffer and no environment pointer. *)
Theorem uvc_close_is_idempotent (c : UVC.UVCCamera) (h : UVC.Host) :
  let '(c1, h1) := UVC.close c h in
  UVC.close c1 h1 = (c1, h1) /\
  UVC_isStreaming c1 = false /\ UVC.frameBuffer_ c1 = None /\
  UVC.env_ c1 = false.
Proof.
  unfold UVC.close, UVC.stopStreaming, UVC_isStreaming.
  destruct c as [env conn dev ep wd ht str fb size].
  cbn [UVC.streaming_ UVC.set_streaming UVC.frameBuffer_ UVC.env_
       UVC.usbConnection_ UVC.usbDevice_ UVC.bulkEndpoint_ UVC.width_
       UVC.height_ UVC.frameBufferSize_].
  destruct str, fb, env; cbn; repeat split.
Qed.

(** * Further properties of the JNI binding *)

(** Every entry point guards against a null [native_ptr]: it reports
    failure (or returns nothing), issues no system call and leaves the
    mappings, the queues and the handles as they were. *)
Theorem native_null_pointer_is_harmless (K : Kernel) (w : World)
        (device_path : string) (fd width height pixel_format : Z) :
  (fst (fst (nativeOpen K None w device_path)) = false /\
   fst (fst (nativeOpenByFd K None w fd)) = false /\
   fst (fst (nativeSetFormat K None w width height pixel_format)) = false /\
   option_map (fun x => fst (fst x)) (nativeStartStreaming K None w)
     = Some false /\
   fst (fst (nativeGetFrame K None w)) = None) /\
  (nativeClose K None w = (None, w) /\
   nativeStopStreaming K None w = (None, w) /\
   nativeDestroy K None w = w) /\
  Forall (fun w' => w_tick w' = w_tick w /\ same_device w w')
         [snd (nativeOpen K None w device_path);
          snd (nativeOpenByFd K None w fd);
          snd (nativeSetFormat K None w width height pixel_format);
          match nativeStartStreaming K None w with
          | Some x => snd x
          | None => w
          end;
          snd (nativeGetFrame K None w)].
Proof.
  split; [repeat split|]. split; [repeat split|].
  repeat constructor.
Qed.

(** [nativeDestroy] runs [close]: it gives the descriptor the object holds
    to [::close] exactly once, and none when the object holds none, and it
    issues a system call only for what there is to release.  In
    particular [nativeCreate] followed by [nativeDestroy] leaves the world
    exactly as it was. *)
Theorem nativeDestroy_releases_descriptor (K : Kernel) (c : V4L2Camera)
        (w : World) :
  w_closed (nativeDestroy K (Some c) w) = held_handle c ++ w_closed w /\
  (let '(created, w1) := nativeCreate w in nativeDestroy K created w1 = w) /\
  (streaming_ c = false -> buffer_start_ c = None -> isOpen c = false ->
   nativeDestroy K (Some c) w = w).
Proof.
  unfold nativeDestroy, V4L2Camera_delete.
  pose proof (close_outcome K c w) as H.
  destruct (close K c w) as [c1 w1] eqn:Ec. cbn [snd].
  destruct H as (_ & _ & Hc & _). split; [exact Hc|].
  split; [reflexivity|].
  intros Hs Hp Ho. unfold close, stopStreaming, freeBuffers in Ec.
  unfold isOpen in Ho. rewrite Hs, Hp in Ec. cbn in Ec. rewrite Ho in Ec.
  now injection Ec as _ <-.
Qed.

Lemma nativeDestroy_releases_descriptor_witness :
  nativeDestroy good_kernel (Some V4L2Camera_new) world0 = world0.
Proof.
  destruct (nativeDestroy_releases_descriptor good_kernel V4L2Camera_new world0)
    as (_ & _ & H).
  apply H; reflexivity.
Defined.

(** After [nativeClose], [nativeGetFrame] normally returns null without a
    system call.  Only when the object was streaming and
    [VIDIOC_STREAMOFF] failed during the close does the streaming flag
    survive, and [nativeGetFrame] then still issues [VIDIOC_DQBUF], on a
    descriptor the object no longer holds. *)
Theorem nativeGetFrame_after_nativeClose (K K' : Kernel) (c : V4L2Camera)
        (w : World) :
  let '(closed, w1) := nativeClose K (Some c) w in
  exists c1,
    closed = Some c1 /\ isOpen c1 = false /\
    if streaming_ c && negb (ioctl_streamoff K w (fd_ c))
    then (S (w_tick w1) <= w_tick (snd (nativeGetFrame K' closed w1)))%nat
    else nativeGetFrame K' closed w1
         = (None, closed, log (LOGE "Camera is not streaming") w1).
Proof.
  unfold nativeClose.
  pose proof (close_outcome K c w) as H.
  destruct (close K c w) as [c1 w1].
  destruct H as (Hopen & _ & _ & _ & Hs).
  exists c1. split; [reflexivity|]. split; [exact Hopen|].
  pose proof (nativeGetFrame_calls K' c1 w1) as Hcalls.
  rewrite <- Hs. destruct (streaming_ c1) eqn:Es.
  - destruct (nativeGetFrame K' (Some c1) w1) as [[res oc] w2].
    cbn [negb snd] in *.
    destruct (ioctl_dqbuf K' w1 (fd_ c1)); [lia|lia|lia].
  - unfold nativeGetFrame, getFrame. rewrite Es. reflexivity.
Qed.

(** * The frame handed out *)

Lemma u32_to_int_small (z : Z) : 0 <= z <= INT_MAX -> u32_to_int z = z.
Proof.
  unfold u32_to_int, INT_MAX. intro H.
  rewrite Z.mod_small by lia.
  destruct (Z.leb_spec z 2147483647); [reflexivity|lia].
Qed.

Lemma u32_to_int_range (z : Z) : INT_MIN <= u32_to_int z <= INT_MAX.
Proof.
  unfold u32_to_int, INT_MIN, INT_MAX.
  pose proof (Z.mod_pos_bound z 4294967296 ltac:(lia)) as H.
  destruct (Z.leb_spec (z mod 4294967296) 2147483647); lia.
Qed.

(** On a pool whose slots are live regions, a [getFrame] that succeeds
    with a buffer index inside the pool hands out the start of that
    buffer's region, still mapped; [current_buffer_] names that buffer and
    holds the byte count the driver reported, and the pool itself is
    untouched.  The size handed out is that [__u32] count converted to
    [int]: the count itself when it is at most [INT_MAX], a negative
    number above. *)
Theorem getFrame_returns_pool_region (K : Kernel) (base n : nat)
        (c : V4L2Camera) (w : World) (buffer : ptr) (size : Z)
        (c' : V4L2Camera) (w' : World) :
  pool_at base n c -> pool_live base n c w ->
  getFrame K c w = (Some (buffer, size), c', w') ->
  0 <= b_index (current_buffer_ c') < Z.of_nat n ->
  buffer = Addr (base + Z.to_nat (b_index (current_buffer_ c'))) /\
  is_mapped (base + Z.to_nat (b_index (current_buffer_ c'))) w' = true /\
  ioctl_dqbuf K w (fd_ c)
    = DqOk (b_index (current_buffer_ c')) (b_bytesused (current_buffer_ c')) /\
  size = u32_to_int (b_bytesused (current_buffer_ c')) /\
  INT_MIN <= size <= INT_MAX /\
  (0 <= b_bytesused (current_buffer_ c') <= INT_MAX ->
   size = b_bytesused (current_buffer_ c')) /\
  pool_at base n c' /\ pool_live base n c' w'.
Proof.
  intros Hat Hlive Hget Hidx. unfold getFrame in Hget.
  destruct (negb (streaming_ c)); [discriminate|].
  destruct (ioctl_dqbuf K w (fd_ c)) as [i used| |]; try discriminate.
  injection Hget as <- <- <- <-. cbn [current_buffer_ set_current_buffer
                                      b_index b_bytesused] in *.
  destruct Hat as (bs & ps & Hbs & Hps & Hlb & Hlp & Hcnt & Hslots).
  rewrite Hps.
  assert (Hi : (Z.to_nat i < n)%nat) by lia.
  destruct (Hslots _ Hi) as [Hp _].
  split; [exact Hp|]. split.
  - unfold is_mapped. apply existsb_exists.
    eexists. split; [apply (Hlive _ Hi)|]. apply Nat.eqb_refl.
  - split; [reflexivity|]. split; [reflexivity|].
    split; [apply u32_to_int_range|].
    split; [apply u32_to_int_small|]. split.
    + exists bs, ps. repeat split; auto; apply Hslots; assumption.
    + exact Hlive.
Qed.

Lemma getFrame_returns_pool_region_witness :
  fst (fst first_frame) = Some (Addr 1, 8) /\
  is_mapped 1 (snd first_frame) = true.
Proof.
  destruct (getFrame_returns_pool_region good_kernel 1 4
              (fst streaming_state) (snd streaming_state) (Addr 1) 8
              (snd (fst first_frame)) (snd first_frame))
    as (_ & H & _).
  - exists [mk_buffer 0 1 0 1 0 8; mk_buffer 1 1 0 1 8 8;
            mk_buffer 2 1 0 1 16 8; mk_buffer 3 1 0 1 24 8],
           [Addr 1; Addr 2; Addr 3; Addr 4].
    repeat split; try (vm_compute; reflexivity);
      destruct i as [|[|[|[|i]]]]; try reflexivity; lia.
  - intros i Hi. destruct i as [|[|[|[|i]]]]; try lia; vm_compute; tauto.
  - vm_compute; reflexivity.
  - vm_compute. split; [discriminate|reflexivity].
  - split; [vm_compute; reflexivity|exact H].
Defined.
